(** * Weather scanner of polymarket-bot: a shallow embedding

    The development follows the class [NWSClient] (the part of
    [src/index.ts] that the scanner imports as [./nws-client]) and the class
    [WeatherScanner] of [src/weather/scanner.ts].

    - JavaScript strings are byte strings ([string]), a text standing for
      its UTF-8 encoding; [toLowerCase] acts on the ASCII letters, every
      other byte (the two bytes of the degree sign included) is left alone;
      [trim] strips the encodings of the white space and line terminators
      of ECMAScript.
    - Numbers read from JSON are finite doubles, hence rationals ([Q]); a
      number that a client hands back may also be infinite or [NaN].
      Arithmetic is exact: rounding to the nearest double is not modelled.
    - A [Date] is its time value in milliseconds since the epoch, or invalid.
    - The asynchronous methods run strictly one after the other, so they are
      functions in a state-and-exception monad.  The state holds the grid
      point cache of the [NWSClient] and the log of the external calls issued
      so far; the outside world is an oracle that answers each call, and may
      answer the same call differently as the log grows.
    - Logging and the pauses between requests ([setTimeout]) have no effect
      on any value and are left out.
    - The module [./edge-detector] is not among the sources: the scanner
      takes what it imports from it as parameters, and the detector itself
      is modelled from the specification in [EdgeDetector]. *)

From Stdlib Require Import ZArith QArith Qround String Ascii List Lia Bool.
From Stdlib Require Import Sorted Permutation.
From stdpp Require Import gmap strings.

Local Open Scope string_scope.
Local Open Scope Z_scope.

(** ** JavaScript values used by the two classes *)

Module Js.

(** [number]: a finite value, an infinity or NaN.  A decimal literal
    denotes its exact value. *)
Inductive number : Type :=
| NaN : number
| PosInf : number
| NegInf : number
| Fin : Q -> number.

(** [x > 0] on numbers; every comparison with NaN is false. *)
Definition gt0 (x : number) : bool :=
  match x with
  | NaN | NegInf => false
  | PosInf => true
  | Fin q => negb (Qle_bool q 0)
  end.

(** A loosely typed field of a raw record. *)
Inductive value : Type :=
| Undefined : value
| Str : string -> value
| Num : number -> value.

(** Truthiness, as [||] and [if] test it. *)
Definition truthy (v : value) : bool :=
  match v with
  | Undefined => false
  | Str s => negb (String.eqb s "")
  | Num NaN => false
  | Num (Fin q) => negb (Qeq_bool q 0)
  | Num _ => true
  end.

(** [a || b] on values. *)
Definition or (a b : value) : value := if truthy a then a else b.

(** [a || b] where both are strings or undefined: the empty string is
    falsy. *)
Definition sor (a b : option string) : option string :=
  match a with
  | Some s => if String.eqb s "" then b else a
  | None => b
  end.

(** [a || ''] *)
Definition sor_empty (a : option string) : string :=
  match a with
  | Some s => s
  | None => ""
  end.

(** [a || b] where [a] is an array or undefined: every array is truthy,
    the empty one too. *)
Definition aor {A} (a b : option (list A)) : option (list A) :=
  match a with
  | Some _ => a
  | None => b
  end.

(** *** Strings *)

Definition lower_ascii (c : ascii) : ascii :=
  let n := nat_of_ascii c in
  if ((65 <=? n)%nat && (n <=? 90)%nat)%bool then ascii_of_nat (n + 32) else c.

Fixpoint toLowerCase (s : string) : string :=
  match s with
  | EmptyString => EmptyString
  | String c r => String (lower_ascii c) (toLowerCase r)
  end.

(** [s.includes(p)] *)
Fixpoint includes (s p : string) : bool :=
  if String.prefix p s then true
  else match s with
       | EmptyString => false
       | String _ r => includes r p
       end.

(** [xs.some(f)] *)
Definition some {A} (f : A -> bool) (xs : list A) : bool := existsb f xs.

Definition is_digit (c : ascii) : bool :=
  let n := nat_of_ascii c in ((48 <=? n)%nat && (n <=? 57)%nat)%bool.

Definition digit_val (c : ascii) : Z := Z.of_nat (nat_of_ascii c) - 48.

(** The class [\s] restricted to single bytes. *)
Definition is_space (c : ascii) : bool :=
  let n := nat_of_ascii c in
  ((n =? 32)%nat || ((9 <=? n)%nat && (n <=? 13)%nat))%bool.

(** *** [parseFloat] *)

Fixpoint read_digits (acc : Z) (n : nat) (s : string) : Z * nat * string :=
  match s with
  | String c r =>
      if is_digit c then read_digits (10 * acc + digit_val c) (S n) r else (acc, n, s)
  | EmptyString => (acc, n, s)
  end.

Fixpoint skip_spaces (s : string) : string :=
  match s with
  | String c r => if is_space c then skip_spaces r else s
  | EmptyString => s
  end.

(** An optional sign: is it a minus, and what follows. *)
Definition read_sign (s : string) : bool * string :=
  match s with
  | String "-" r => (true, r)
  | String "+" r => (false, r)
  | _ => (false, s)
  end.

(** The exponent part [e[+-]digits], zero when there is none. *)
Definition read_exponent (s : string) : Z :=
  match s with
  | String c r =>
      if (Ascii.eqb c "e" || Ascii.eqb c "E")%bool then
        let (neg, r') := read_sign r in
        let '(e, n, _) := read_digits 0 0 r' in
        if (n =? 0)%nat then 0 else if neg then - e else e
      else 0
  | EmptyString => 0
  end.

(** [parseFloat(s)] on a string: the longest prefix that is a decimal
    literal, after leading blanks. *)
Definition parseFloat_string (s : string) : number :=
  let (neg, s0) := read_sign (skip_spaces s) in
  if String.prefix "Infinity" s0 then (if neg then NegInf else PosInf)
  else
    let '(i, ni, s1) := read_digits 0 0 s0 in
    let '(f, nf, s2) :=
      match s1 with
      | String "." r => read_digits 0 0 r
      | _ => (0, 0%nat, s1)
      end in
    if (ni + nf =? 0)%nat then NaN
    else
      let scale := 10 ^ Z.of_nat nf in
      let mant := Qmake (i * scale + f) (Z.to_pos scale) in
      let q := (mant * Qpower 10 (read_exponent s2))%Q in
      Fin (Qred (if neg then - q else q)%Q).

(** [parseFloat(v)]: the argument is first turned into a string, which
    for a number gives the number back. *)
Definition parseFloat (v : value) : number :=
  match v with
  | Undefined => NaN
  | Str s => parseFloat_string s
  | Num n => n
  end.

End Js.

(** ** Dates *)

Module JsDate.

(** A [Date] object: an invalid date, or a time value in milliseconds. *)
Inductive Date : Type :=
| Invalid : Date
| Time : Z -> Date.

Definition msPerDay : Z := 86400000.
Definition msPerHour : Z := 1000 * 60 * 60.

(** Year, month (1..12) and day of the month of a day number counted from
    1970-01-01, in the proleptic Gregorian calendar. *)
Definition civil_from_days (z : Z) : Z * Z * Z :=
  let z := z + 719468 in
  let era := z / 146097 in
  let doe := z - era * 146097 in
  let yoe := (doe - doe / 1460 + doe / 36524 - doe / 146096) / 365 in
  let doy := doe - (365 * yoe + yoe / 4 - yoe / 100) in
  let mp := (5 * doy + 2) / 153 in
  let d := doy - (153 * mp + 2) / 5 + 1 in
  let m := if mp <? 10 then mp + 3 else mp - 9 in
  let y := yoe + era * 400 + (if m <=? 2 then 1 else 0) in
  (y, m, d).

(** [Date.UTC(y, m - 1, d) / msPerDay] *)
Definition days_from_civil (y m d : Z) : Z :=
  let y := if m <=? 2 then y - 1 else y in
  let era := y / 400 in
  let yoe := y - era * 400 in
  let mp := if m <=? 2 then m + 9 else m - 3 in
  let doy := (153 * mp + 2) / 5 + d - 1 in
  let doe := yoe * 365 + yoe / 4 - yoe / 100 + doy in
  era * 146097 + doe - 719468.

Definition digit_char (d : Z) : ascii := ascii_of_nat (48 + Z.to_nat (d mod 10)).

(** The last [width] decimal digits of [n], most significant first. *)
Fixpoint pad (width : nat) (n : Z) : string :=
  match width with
  | O => EmptyString
  | S w => pad w (n / 10) ++ String (digit_char n) EmptyString
  end.

(** The year of an ISO string: four digits, or a sign and six digits
    outside 0..9999. *)
Definition iso_year (y : Z) : string :=
  if (0 <=? y) && (y <=? 9999) then pad 4 y
  else if y <? 0 then "-" ++ pad 6 (- y)
  else "+" ++ pad 6 y.

(** [new Date(t).toISOString().split('T')[0]] for a valid time value. *)
Definition isoDate (t : Z) : string :=
  let '(y, m, d) := civil_from_days (t / msPerDay) in
  iso_year y ++ "-" ++ pad 2 m ++ "-" ++ pad 2 d.

(** [new Date(t).toISOString()] for a valid time value. *)
Definition toISOString (t : Z) : string :=
  let ms := t mod msPerDay in
  isoDate t ++ "T" ++ pad 2 (ms / msPerHour) ++ ":" ++ pad 2 (ms / 60000 mod 60)
    ++ ":" ++ pad 2 (ms / 1000 mod 60) ++ "." ++ pad 3 (ms mod 1000) ++ "Z".

End JsDate.

(** ** Exceptions, results and the monad of the asynchronous methods *)

Inductive Exn : Type :=
| Error (msg : string)          (* [new Error(msg)] thrown by the program *)
| RangeError (msg : string)     (* thrown by [toISOString] on an invalid date *)
| HostError (msg : string).     (* raised by the host or a collaborator *)

Inductive Result (A : Type) : Type :=
| Ok (a : A)
| Throw (e : Exn).
Arguments Ok {A} a.
Arguments Throw {A} e.

(** [d.toISOString().split('T')[0]] *)
Definition toISODate (d : JsDate.Date) : Result string :=
  match d with
  | JsDate.Invalid => Throw (RangeError "Invalid time value")
  | JsDate.Time t => Ok (JsDate.isoDate t)
  end.

(** An external call. *)
Inductive Request : Type :=
| Fetch (url : string)
| GetPrice (tokenId : option string).

(** What a [fetch] yields. *)
Inductive Response (A : Type) : Type :=
| Rejects (e : Exn)                          (* [fetch] throws *)
| NotOk (status statusText : string)         (* [response.ok] is false *)
| Body (payload : Result A).                 (* [response.ok]; decoding the body
                                                yields the payload or throws *)
Arguments Rejects {A} e.
Arguments NotOk {A} status statusText.
Arguments Body {A} payload.

Module Monad.

Section WithState.
Context {St : Type}.

Definition M (A : Type) : Type := St -> Result A * St.

Definition ret {A} (a : A) : M A := fun s => (Ok a, s).
Definition throw {A} (e : Exn) : M A := fun s => (Throw e, s).
Definition bind {A B} (m : M A) (k : A -> M B) : M B :=
  fun s => match m s with
           | (Ok a, s') => k a s'
           | (Throw e, s') => (Throw e, s')
           end.
(** [try { m } catch (error) { h error }] *)
Definition try_catch {A} (m : M A) (h : Exn -> M A) : M A :=
  fun s => match m s with
           | (Ok a, s') => (Ok a, s')
           | (Throw e, s') => h e s'
           end.
Definition lift {A} (r : Result A) : M A := fun s => (r, s).
Definition get : M St := fun s => (Ok s, s).
Definition put (s : St) : M unit := fun _ => (Ok tt, s).
End WithState.

Declare Scope js_scope.
Delimit Scope js_scope with js.
Notation "x <- m ;; k" := (bind m (fun x => k))
  (at level 100, m at next level, right associativity) : js_scope.
Notation "m ;;; k" := (bind m (fun _ => k))
  (at level 100, right associativity) : js_scope.

End Monad.

(** ** Records that cross the boundary of the program *)

(** [interface HourlyForecast] *)
Module HourlyForecast.
Record t : Type := mk {
  startTime : string;
  endTime : string;
  temperature : Q;
  temperatureUnit : string;
  isDaytime : bool;
  shortForecast : string;
}.
End HourlyForecast.

(** [interface GridPoint] *)
Module GridPoint.
Record t : Type := mk {
  office : string;
  gridX : Q;
  gridY : Q;
  forecastUrl : string;
  forecastHourlyUrl : string;
}.
End GridPoint.

Inductive Confidence : Type := very_high | high | medium | low.

(** [interface DailyForecast] *)
Module DailyForecast.
Record t : Type := mk {
  date : string;
  highTemp : Q;
  lowTemp : Q;
  confidence : Confidence;
  hoursUntil : Z;
  shortForecast : string;
}.
End DailyForecast.

(** One element of [market.outcomes] or [market.tokens] of a raw record of
    the market-listing service: the fields [parseOutcomes] reads. *)
Module RawOutcome.
Record t : Type := mk {
  outcome : option string;
  name : option string;
  title : option string;
  tokenId : option string;
  token_id : option string;
  id : option string;
  price : Js.value;
  lastTradePrice : Js.value;
}.
End RawOutcome.

(** A raw record of the market-listing service. *)
Module RawMarket.
Record t : Type := mk {
  question : option string;
  title : option string;
  description : option string;
  slug : option string;
  endDate : option string;
  outcomes : option (list RawOutcome.t);
  tokens : option (list RawOutcome.t);
  id : option string;
  conditionId : option string;
}.
End RawMarket.

(** The outside world: it answers each external call, given the calls
    issued before it. *)
Record World : Type := {
  points : list Request -> string -> Response GridPoint.t;
  hourly : list Request -> string -> Response (list HourlyForecast.t);
  listMarkets : list Request -> string -> Response (list RawMarket.t);
  (** [PolymarketClient.getPrice] *)
  getPrice : list Request -> option string -> Result Js.number;
  (** [new Date().getTime()] *)
  clock : list Request -> Z;
}.

(** What the JavaScript host decides: how [new Date(string)] reads a string
    (implementation-defined outside the ISO format), and local-time
    arithmetic. *)
Record Host : Type := {
  Date_parse : string -> JsDate.Date;
  (** [d.setDate(d.getDate() + 1)] on time values *)
  setDate_next : Z -> Z;
  (** [d.setHours(0, 0, 0, 0)] on time values *)
  setHours_0 : Z -> Z;
}.

(** The mutable state: the cache owned by the [NWSClient], and the log of
    external calls, oldest first. *)
Record State : Type := {
  gridPointCache : gmap string GridPoint.t;
  calls : list Request;
}.

Import Monad.
Local Open Scope js_scope.

Definition M := @Monad.M State.

(** Issue a [fetch]: the call is logged, the world answers. *)
Definition fetch {A} (answer : list Request -> string -> Response A)
    (url : string) : M (Response A) :=
  fun s =>
    let s' := {| gridPointCache := gridPointCache s;
                 calls := calls s ++ [Fetch url] |} in
    match answer (calls s) url with
    | Rejects e => (Throw e, s')
    | r => (Ok r, s')
    end.

(** [new Date().getTime()] *)
Definition now (w : World) : M Z := fun s => (Ok (clock w (calls s)), s).

(** ** [NWSClient] *)

Module NWS.

Definition NWS_API_URL : string := "https://api.weather.gov".

(** An entry of [CITIES].  The coordinates are only ever interpolated into
    strings, so they are kept as the text the interpolation yields
    ([-74.0060] prints as [-74.006]). *)
Record City : Type := {
  name : string;
  lat : string;
  lon : string;
  station : string;
}.

Definition CITIES_entries : list (string * City) :=
  [ ("NYC", {| name := "New York City"; lat := "40.7128"; lon := "-74.006"; station := "KNYC" |});
    ("LA", {| name := "Los Angeles"; lat := "34.0522"; lon := "-118.2437"; station := "KLAX" |});
    ("Chicago", {| name := "Chicago"; lat := "41.8781"; lon := "-87.6298"; station := "KORD" |});
    ("Miami", {| name := "Miami"; lat := "25.7617"; lon := "-80.1918"; station := "KMIA" |});
    ("Dallas", {| name := "Dallas"; lat := "32.7767"; lon := "-96.797"; station := "KDFW" |});
    ("Seattle", {| name := "Seattle"; lat := "47.6062"; lon := "-122.3321"; station := "KSEA" |}) ].

(** [CITIES] is an object literal, so a lookup that finds no own property
    goes on to [Object.prototype]. *)
Definition Object_prototype_keys : list string :=
  [ "constructor"; "__defineGetter__"; "__defineSetter__"; "hasOwnProperty";
    "__lookupGetter__"; "__lookupSetter__"; "isPrototypeOf";
    "propertyIsEnumerable"; "toString"; "valueOf"; "__proto__";
    "toLocaleString" ].

(** The outcome of [CITIES[key]]. *)
Inductive Property : Type :=
| Absent : Property               (* [undefined] *)
| Own : City -> Property          (* an entry of the table *)
| Inherited : Property.           (* a member of [Object.prototype]: truthy,
                                     and without [lat] or [lon] *)

Fixpoint assoc {A} (key : string) (l : list (string * A)) : option A :=
  match l with
  | [] => None
  | (k, v) :: r => if String.eqb k key then Some v else assoc key r
  end.

Definition CITIES (key : string) : Property :=
  match assoc key CITIES_entries with
  | Some c => Own c
  | None => if existsb (String.eqb key) Object_prototype_keys then Inherited else Absent
  end.

(** [`${city.lat}`] and [`${city.lon}`] *)
Definition lat_text (p : Property) : string :=
  match p with Own c => lat c | _ => "undefined" end.
Definition lon_text (p : Property) : string :=
  match p with Own c => lon c | _ => "undefined" end.

(** [Math.max(...xs)] and [Math.min(...xs)] of a non-empty array [x :: xs] *)
Definition Math_max (x : Q) (xs : list Q) : Q :=
  fold_left (fun a b => if Qle_bool a b then b else a) xs x.
Definition Math_min (x : Q) (xs : list Q) : Q :=
  fold_left (fun a b => if Qle_bool b a then b else a) xs x.

(** [Math.max(0, x)] *)
Definition Math_max0 (x : Q) : Q := if Qle_bool 0 x then x else 0%Q.

(** [Math.round(x)] *)
Definition Math_round (x : Q) : Z := Qfloor (x + (1 # 2)).

(** The tier chosen from the forecast horizon (the [if] chain of
    [getDailyHigh]). *)
Definition confidence_of (hoursUntil : Q) : Confidence :=
  if Qle_bool hoursUntil 24 then very_high
  else if Qle_bool hoursUntil 48 then high
  else if Qle_bool hoursUntil 72 then medium
  else low.

(** [static getStdDev(confidence)] *)
Definition getStdDev (confidence : Confidence) : Q :=
  match confidence with
  | very_high => 1.5
  | high => 2.0
  | medium => 3.0
  | low => 4.5
  end.

Section Client.
Variable host : Host.
Variable w : World.

Definition cache_set (key : string) (gp : GridPoint.t) : M unit :=
  fun s => (Ok tt, {| gridPointCache := <[key := gp]> (gridPointCache s);
                      calls := calls s |}).

(** [async getGridPoint(lat, lon)] *)
Definition getGridPoint (lat lon : string) : M GridPoint.t :=
  let cacheKey := lat ++ "," ++ lon in
  s <- get;;
  match gridPointCache s !! cacheKey with
  | Some gp => ret gp
  | None =>
      try_catch
        (response <- fetch (points w) (NWS_API_URL ++ "/points/" ++ lat ++ "," ++ lon);;
         match response with
         | Rejects e => throw e
         | NotOk status statusText =>
             throw (Error ("NWS API error: " ++ status ++ " " ++ statusText))
         | Body payload =>
             gridPoint <- lift payload;;
             cache_set cacheKey gridPoint;;;
             ret gridPoint
         end)
        (fun error => throw error)
  end.

(** [async getHourlyForecast(lat, lon)] *)
Definition getHourlyForecast (lat lon : string) : M (list HourlyForecast.t) :=
  try_catch
    (gridPoint <- getGridPoint lat lon;;
     response <- fetch (hourly w) (GridPoint.forecastHourlyUrl gridPoint);;
     match response with
     | Rejects e => throw e
     | NotOk status _ => throw (Error ("NWS forecast error: " ++ status))
     | Body payload => lift payload
     end)
    (fun error => throw error).

(** [hourlyForecasts.filter(f => new Date(f.startTime).toISOString()
    .split('T')[0] === targetDateStr)]; the callback throws on a start
    time that is no date. *)
Fixpoint filter_day (targetDateStr : string) (fs : list HourlyForecast.t)
    : Result (list HourlyForecast.t) :=
  match fs with
  | [] => Ok []
  | f :: rest =>
      match toISODate (Date_parse host (HourlyForecast.startTime f)) with
      | Throw e => Throw e
      | Ok forecastDate =>
          match filter_day targetDateStr rest with
          | Throw e => Throw e
          | Ok kept =>
              Ok (if String.eqb forecastDate targetDateStr then f :: kept else kept)
          end
      end
  end.

(** [async getDailyHigh(cityCode, targetDate)] *)
Definition getDailyHigh (cityCode : string) (targetDate : JsDate.Date)
    : M (option DailyForecast.t) :=
  match CITIES cityCode with
  | Absent => throw (Error ("Unknown city: " ++ cityCode))
  | city =>
      try_catch
        (hourlyForecasts <- getHourlyForecast (lat_text city) (lon_text city);;
         match targetDate with
         | JsDate.Invalid => lift (toISODate targetDate);;; ret None
         | JsDate.Time target =>
             let targetDateStr := JsDate.isoDate target in
             dayForecasts <- lift (filter_day targetDateStr hourlyForecasts);;
             match dayForecasts with
             | [] => ret None
             | first :: others =>
                 let temps := map HourlyForecast.temperature others in
                 let highTemp := Math_max (HourlyForecast.temperature first) temps in
                 let lowTemp := Math_min (HourlyForecast.temperature first) temps in
                 t_now <- now w;;
                 let hoursUntil :=
                   Math_max0 (inject_Z (target - t_now) / inject_Z JsDate.msPerHour) in
                 let confidence := confidence_of hoursUntil in
                 let daytimeForecasts :=
                   List.filter HourlyForecast.isDaytime dayForecasts in
                 let shortForecast :=
                   match daytimeForecasts with
                   | d :: _ => HourlyForecast.shortForecast d
                   | [] => HourlyForecast.shortForecast first
                   end in
                 ret (Some {| DailyForecast.date := targetDateStr;
                              DailyForecast.highTemp := highTemp;
                              DailyForecast.lowTemp := lowTemp;
                              DailyForecast.confidence := confidence;
                              DailyForecast.hoursUntil := Math_round hoursUntil;
                              DailyForecast.shortForecast := shortForecast |})
             end
         end)
        (fun error => throw error)
  end.



End Client.

End NWS.

(** ** The regular expressions of [extractTargetDate] *)

Module Regex.

(** The fragment of the pattern language that [datePatterns] uses. *)
Inductive regex : Type :=
| Lit (s : string)              (* a literal; letters match either case under [/i] *)
| Digits (lo hi : nat)          (* [\d{lo,hi}] *)
| Spaces1                       (* [\s+] *)
| Opt (r : regex)               (* [r?] *)
| Alt (a b : regex)             (* [a|b] *)
| Seq (a b : regex).

(** A backtracking matcher in continuation style: [k] is run on what is
    left of the subject, the result is what is left after the whole
    match.  Quantifiers are greedy. *)
Fixpoint lit (ci : bool) (p s : string) (k : string -> option string) : option string :=
  match p with
  | EmptyString => k s
  | String c p' =>
      match s with
      | EmptyString => None
      | String d s' =>
          if (if ci then Ascii.eqb (Js.lower_ascii c) (Js.lower_ascii d)
              else Ascii.eqb c d)
          then lit ci p' s' k else None
      end
  end.

Fixpoint digits (lo hi : nat) (s : string) (k : string -> option string) : option string :=
  let stop := if (lo =? 0)%nat then k s else None in
  match hi with
  | O => stop
  | S hi' =>
      match s with
      | String c s' =>
          if Js.is_digit c then
            match digits (Nat.pred lo) hi' s' k with
            | Some r => Some r
            | None => stop
            end
          else stop
      | EmptyString => stop
      end
  end.

(** [\s*] after at least [need] blanks were seen. *)
Fixpoint spaces (need : bool) (s : string) (k : string -> option string) : option string :=
  let stop := if need then None else k s in
  match s with
  | String c s' =>
      if Js.is_space c then
        match spaces false s' k with
        | Some r => Some r
        | None => stop
        end
      else stop
  | EmptyString => stop
  end.

Fixpoint exec (ci : bool) (r : regex) (s : string) (k : string -> option string)
    : option string :=
  match r with
  | Lit p => lit ci p s k
  | Digits lo hi => digits lo hi s k
  | Spaces1 => spaces true s k
  | Opt a => match exec ci a s k with Some x => Some x | None => k s end
  | Alt a b => match exec ci a s k with Some x => Some x | None => exec ci b s k end
  | Seq a b => exec ci a s (fun s' => exec ci b s' k)
  end.

Fixpoint take (n : nat) (s : string) : string :=
  match n, s with
  | S n', String c s' => String c (take n' s')
  | _, _ => EmptyString
  end.

(** The text matched at the start of [s], if the pattern matches there. *)
Definition match_here (ci : bool) (r : regex) (s : string) : option string :=
  match exec ci r s Some with
  | Some rest => Some (take (String.length s - String.length rest) s)
  | None => None
  end.

(** [s.match(r)[0]] for a pattern without the [g] flag: the leftmost
    match. *)
Fixpoint match0 (ci : bool) (r : regex) (s : string) : option string :=
  match match_here ci r s with
  | Some m => Some m
  | None =>
      match s with
      | String _ s' => match0 ci r s'
      | EmptyString => None
      end
  end.

(** [a b ...] in sequence *)
Fixpoint seqs (a : regex) (r : list regex) : regex :=
  match r with
  | [] => a
  | b :: r' => Seq a (seqs b r')
  end.

(** [(a|b|...)] over literals *)
Fixpoint alts (a : string) (r : list string) : regex :=
  match r with
  | [] => Lit a
  | b :: r' => Alt (Lit a) (alts b r')
  end.

End Regex.

(** ** [WeatherScanner] *)

(** [interface MarketOutcome] of the edge detector, over its bucket type. *)
Module MarketOutcome.
Record t (TempBucket : Type) : Type := mk {
  tokenId : option string;
  bucket : TempBucket;
  price : Js.number;
}.
Arguments mk {TempBucket}.
Arguments tokenId {TempBucket}.
Arguments bucket {TempBucket}.
Arguments price {TempBucket}.
End MarketOutcome.

(** [interface WeatherMarket] of the edge detector. *)
Module WeatherMarket.
Record t (TempBucket : Type) : Type := mk {
  marketId : option string;
  conditionId : option string;
  city : string;
  cityCode : string;
  targetDate : string;
  outcomes : list (MarketOutcome.t TempBucket);
  question : option string;
}.
Arguments mk {TempBucket}.
Arguments marketId {TempBucket}.
Arguments conditionId {TempBucket}.
Arguments city {TempBucket}.
Arguments cityCode {TempBucket}.
Arguments targetDate {TempBucket}.
Arguments outcomes {TempBucket}.
Arguments question {TempBucket}.
End WeatherMarket.

(** [interface WeatherScanResult] *)
Module WeatherScanResult.
Record t (TempBucket WeatherOpportunity : Type) : Type := mk {
  markets : list (WeatherMarket.t TempBucket);
  forecasts : gmap string DailyForecast.t;
  opportunities : list WeatherOpportunity;
  scannedAt : string;
}.
Arguments mk {TempBucket WeatherOpportunity}.
Arguments markets {TempBucket WeatherOpportunity}.
Arguments forecasts {TempBucket WeatherOpportunity}.
Arguments opportunities {TempBucket WeatherOpportunity}.
Arguments scannedAt {TempBucket WeatherOpportunity}.
End WeatherScanResult.

(** The object that [quickScan] returns. *)
Module QuickScan.
Record t (WeatherOpportunity : Type) : Type := mk {
  hasOpportunities : bool;
  count : nat;
  topOpportunity : option WeatherOpportunity;
}.
Arguments mk {WeatherOpportunity}.
Arguments hasOpportunities {WeatherOpportunity}.
Arguments count {WeatherOpportunity}.
Arguments topOpportunity {WeatherOpportunity}.
End QuickScan.

Module Scanner.

Definition GAMMA_API_URL : string := "https://gamma-api.polymarket.com".

Definition TEMP_KEYWORDS : list string :=
  [ "temperature"; "high temperature"; "daily high"; "degrees"; "°F"; "°f" ].

(** [CITY_VARIATIONS], in the order [Object.entries] lists it. *)
Definition CITY_VARIATIONS : list (string * list string) :=
  [ ("NYC", ["new york"; "nyc"; "manhattan"; "central park"]);
    ("LA", ["los angeles"; "la"; "lax"]);
    ("Chicago", ["chicago"; "ord"]);
    ("Miami", ["miami"; "mia"]);
    ("Dallas", ["dallas"; "dfw"; "fort worth"]);
    ("Seattle", ["seattle"; "sea"]) ].

(** [datePatterns], each with its [i] flag. *)
Definition datePatterns : list (bool * Regex.regex) :=
  let d n := Regex.Digits n n in
  let day := Regex.Digits 1 2 in
  [ (false, Regex.seqs (d 4%nat) [Regex.Lit "-"; d 2%nat; Regex.Lit "-"; d 2%nat]);
    (false, Regex.seqs day [Regex.Lit "/"; day; Regex.Opt (Regex.Lit "/");
                            Regex.Digits 0 4]);
    (true, Regex.seqs
             (Regex.alts "january"
                ["february"; "march"; "april"; "may"; "june"; "july"; "august";
                 "september"; "october"; "november"; "december"])
             [Regex.Spaces1; day]);
    (true, Regex.seqs
             (Regex.alts "jan"
                ["feb"; "mar"; "apr"; "may"; "jun"; "jul"; "aug"; "sep"; "oct";
                 "nov"; "dec"])
             [Regex.Opt (Regex.Lit "."); Regex.Spaces1; day]) ].

(** The first city of [CITY_VARIATIONS] one of whose variations occurs in
    the text. *)
Fixpoint find_city (question : string) (l : list (string * list string))
    : option string :=
  match l with
  | [] => None
  | (code, variations) :: r =>
      if Js.some (fun v => Js.includes question v) variations then Some code
      else find_city question r
  end.

Section Parsing.
Variable host : Host.
(** The bucket type and the bucket-label parser of the edge detector,
    which this class imports. *)
Variable TempBucket : Type.
Variable parseTempBucket : string -> option TempBucket.

(** The loop of [extractTargetDate] over the patterns: the first pattern
    that matches and whose match reads as a valid date. *)
Fixpoint first_date (question : string) (patterns : list (bool * Regex.regex))
    : option string :=
  match patterns with
  | [] => None
  | (ci, pattern) :: r =>
      match Regex.match0 ci pattern question with
      | Some m =>
          match Date_parse host m with
          | JsDate.Time t => Some (JsDate.isoDate t)
          | JsDate.Invalid => first_date question r
          end
      | None => first_date question r
      end
  end.

(** [extractTargetDate(question, market)], at time [t_now].  It never
    returns [null]: an invalid [endDate] makes [toISOString] throw. *)
Definition extractTargetDate (t_now : Z) (question : string) (market : RawMarket.t)
    : Result string :=
  match Js.sor (RawMarket.endDate market) None (* [if (market.endDate)] *) with
  | Some endDate => toISODate (Date_parse host endDate)
  | None =>
      match first_date question datePatterns with
      | Some d => Ok d
      | None => Ok (JsDate.isoDate (setDate_next host t_now))
      end
  end.

(** [parseOutcomes(market)] *)
Definition parseOutcomes (market : RawMarket.t) : list (MarketOutcome.t TempBucket) :=
  let outcomesList :=
    match Js.aor (RawMarket.outcomes market) (RawMarket.tokens market) with
    | Some l => l
    | None => []
    end in
  flat_map
    (fun outcome =>
       let label :=
         Js.sor_empty
           (Js.sor (Js.sor (RawOutcome.outcome outcome) (RawOutcome.name outcome))
                   (RawOutcome.title outcome)) in
       match parseTempBucket label with
       | Some bucket =>
           [ {| MarketOutcome.tokenId :=
                  Js.sor (Js.sor (RawOutcome.tokenId outcome) (RawOutcome.token_id outcome))
                         (RawOutcome.id outcome);
                MarketOutcome.bucket := bucket;
                MarketOutcome.price :=
                  Js.parseFloat
                    (Js.or (Js.or (RawOutcome.price outcome)
                                  (RawOutcome.lastTradePrice outcome))
                           (Js.Str "0.5")) |} ]
       | None => []
       end)
    outcomesList.

(** The text that [parseWeatherMarket] inspects. *)
Definition question_text (market : RawMarket.t) : string :=
  Js.toLowerCase
    (Js.sor_empty (Js.sor (RawMarket.question market) (RawMarket.title market))).

(** The first test of [parseWeatherMarket]. *)
Definition isTemp (market : RawMarket.t) : bool :=
  Js.some (fun kw => Js.includes (question_text market) (Js.toLowerCase kw))
          TEMP_KEYWORDS.

(** [parseWeatherMarket(market)], at time [t_now].  The city code comes
    from [CITY_VARIATIONS], whose keys are all entries of [CITIES]; the
    test [!targetDate] never fires, a date string is not empty. *)
Definition parseWeatherMarket (t_now : Z) (market : RawMarket.t)
    : Result (option (WeatherMarket.t TempBucket)) :=
  let question := question_text market in
  if negb (isTemp market) then Ok None
  else
    match find_city question CITY_VARIATIONS with
    | None => Ok None
    | Some cityCode =>
        match NWS.CITIES cityCode with
        | NWS.Own c =>
            let cityName := NWS.name c in
            match extractTargetDate t_now question market with
            | Throw e => Throw e
            | Ok targetDate =>
                let outcomes := parseOutcomes market in
                match outcomes with
                | [] => Ok None
                | _ =>
                    Ok (Some {| WeatherMarket.marketId :=
                                  Js.sor (RawMarket.id market) (RawMarket.conditionId market);
                                WeatherMarket.conditionId := RawMarket.conditionId market;
                                WeatherMarket.city := cityName;
                                WeatherMarket.cityCode := cityCode;
                                WeatherMarket.targetDate := targetDate;
                                WeatherMarket.outcomes := outcomes;
                                WeatherMarket.question :=
                                  Js.sor (RawMarket.question market)
                                         (RawMarket.title market) |})
                end
            end
        | _ => Throw (HostError "Cannot read properties of undefined (reading 'name')")
        end
    end.

End Parsing.

(** [[...new Set(xs)]]: the first occurrence of each string, in order. *)
Fixpoint uniq (seen xs : list string) : list string :=
  match xs with
  | [] => []
  | x :: r =>
      if existsb (String.eqb x) seen then uniq seen r else x :: uniq (x :: seen) r
  end.

(** [a === b] on identifiers that may be undefined *)
Definition same_id (a b : option string) : bool :=
  match a, b with
  | Some x, Some y => String.eqb x y
  | None, None => true
  | _, _ => false
  end.

Section Scan.
Variable host : Host.
Variable w : World.
(** What the class imports from the edge detector: the bucket type, the
    label parser, the opportunity type with its [edge] field, and the
    detector, a function without effects. *)
Variable TempBucket : Type.
Variable parseTempBucket : string -> option TempBucket.
Variable WeatherOpportunity : Type.
Variable edge : WeatherOpportunity -> Q.
Variable detectOpportunities :
  WeatherMarket.t TempBucket -> DailyForecast.t -> list WeatherOpportunity.

Let Market := WeatherMarket.t TempBucket.
Let Outcome := MarketOutcome.t TempBucket.

(** [for (const market of data) { ... markets.push(weatherMarket) }] *)
Fixpoint collect (data : list RawMarket.t) (markets : list Market) : M (list Market) :=
  match data with
  | [] => ret markets
  | market :: rest =>
      t <- now w;;
      weatherMarket <- lift (parseWeatherMarket host TempBucket parseTempBucket t market);;
      collect rest (match weatherMarket with
                    | Some m => markets ++ [m]
                    | None => markets
                    end)
  end.

(** The same loop in [searchBroadly], which skips a market whose
    [marketId] was seen. *)
Fixpoint collect_new (data : list RawMarket.t) (markets : list Market)
    : M (list Market) :=
  match data with
  | [] => ret markets
  | market :: rest =>
      t <- now w;;
      weatherMarket <- lift (parseWeatherMarket host TempBucket parseTempBucket t market);;
      collect_new rest
        (match weatherMarket with
         | Some m =>
             if existsb (fun m' => same_id (WeatherMarket.marketId m')
                                           (WeatherMarket.marketId m)) markets
             then markets else markets ++ [m]
         | None => markets
         end)
  end.

Fixpoint search_keywords (keywords : list string) (markets : list Market)
    : M (list Market) :=
  match keywords with
  | [] => ret markets
  | keyword :: rest =>
      response <- fetch (listMarkets w)
                    (GAMMA_API_URL ++ "/markets?closed=false&limit=50&_q=" ++ keyword);;
      markets' <- match response with
                  | Rejects e => throw e
                  | NotOk _ _ => ret markets
                  | Body payload => data <- lift payload;; collect_new data markets
                  end;;
      search_keywords rest markets'
  end.

(** [private async searchBroadly()]; the three keywords are their own
    URI encoding. *)
Definition searchBroadly : M (list Market) :=
  try_catch (search_keywords ["temperature"; "high"; "weather"] [])
            (fun error => ret []).

(** [async findTemperatureMarkets()] *)
Definition findTemperatureMarkets : M (list Market) :=
  try_catch
    (response <- fetch (listMarkets w)
                   (GAMMA_API_URL ++ "/markets?closed=false&limit=100&tag=weather");;
     match response with
     | Rejects e => throw e
     | NotOk _ _ => searchBroadly
     | Body payload => data <- lift payload;; collect data []
     end)
    (fun error => searchBroadly).

(** [this.polyClient.getPrice(tokenId)]: logged, answered by the world. *)
Definition get_price (tokenId : option string) : M Js.number :=
  fun s => (getPrice w (calls s) tokenId,
            {| gridPointCache := gridPointCache s;
               calls := calls s ++ [GetPrice tokenId] |}).

(** The body of the loop of [updateMarketPrices] for one outcome. *)
Definition update_outcome (outcome : Outcome) : M Outcome :=
  try_catch
    (price <- get_price (MarketOutcome.tokenId outcome);;
     ret {| MarketOutcome.tokenId := MarketOutcome.tokenId outcome;
            MarketOutcome.bucket := MarketOutcome.bucket outcome;
            MarketOutcome.price :=
              if Js.gt0 price then price else MarketOutcome.price outcome |})
    (fun error => ret outcome).

Fixpoint update_outcomes (outcomes : list Outcome) : M (list Outcome) :=
  match outcomes with
  | [] => ret []
  | outcome :: rest =>
      outcome' <- update_outcome outcome;;
      rest' <- update_outcomes rest;;
      ret (outcome' :: rest')
  end.

(** [async updateMarketPrices(market)]: the outcomes are updated in
    place and the market itself is returned. *)
Definition updateMarketPrices (market : Market) : M Market :=
  outcomes' <- update_outcomes (WeatherMarket.outcomes market);;
  ret {| WeatherMarket.marketId := WeatherMarket.marketId market;
         WeatherMarket.conditionId := WeatherMarket.conditionId market;
         WeatherMarket.city := WeatherMarket.city market;
         WeatherMarket.cityCode := WeatherMarket.cityCode market;
         WeatherMarket.targetDate := WeatherMarket.targetDate market;
         WeatherMarket.outcomes := outcomes';
         WeatherMarket.question := WeatherMarket.question market |}.

(** [private getTomorrowDate()] *)
Definition getTomorrowDate : M JsDate.Date :=
  t <- now w;;
  ret (JsDate.Time (setHours_0 host (setDate_next host t))).

(** Step 2 of [scan]: one forecast per city code; a failure is logged
    and the city is left out. *)
Fixpoint fetch_forecasts (cityCodes : list string) (scanDate : JsDate.Date)
    (forecasts : gmap string DailyForecast.t) : M (gmap string DailyForecast.t) :=
  match cityCodes with
  | [] => ret forecasts
  | cityCode :: rest =>
      forecasts' <-
        try_catch
          (forecast <- NWS.getDailyHigh host w cityCode scanDate;;
           ret (match forecast with
                | Some f => <[cityCode := f]> forecasts
                | None => forecasts
                end))
          (fun error => ret forecasts);;
      fetch_forecasts rest scanDate forecasts'
  end.

(** Step 3 of [scan]: the markets with their prices refreshed in place,
    and the opportunities in the order they were pushed. *)
Fixpoint analyze (markets : list Market) (forecasts : gmap string DailyForecast.t)
    : M (list Market * list WeatherOpportunity) :=
  match markets with
  | [] => ret ([], [])
  | market :: rest =>
      match forecasts !! WeatherMarket.cityCode market with
      | None =>
          r <- analyze rest forecasts;;
          ret (market :: fst r, snd r)
      | Some forecast =>
          market' <- updateMarketPrices market;;
          let opps := detectOpportunities market' forecast in
          r <- analyze rest forecasts;;
          ret (market' :: fst r, (opps ++ snd r)%list)
      end
  end.

(** [opportunities.sort((a, b) => b.edge - a.edge)]: a stable sort,
    highest edge first. *)
Fixpoint insert_by_edge (x : WeatherOpportunity) (l : list WeatherOpportunity)
    : list WeatherOpportunity :=
  match l with
  | [] => [x]
  | y :: r => if Qle_bool (edge y) (edge x) then x :: y :: r
              else y :: insert_by_edge x r
  end.
Definition sort_by_edge (l : list WeatherOpportunity) : list WeatherOpportunity :=
  fold_right insert_by_edge [] l.

(** [async scan(targetDate?)] *)
Definition scan (targetDate : option JsDate.Date)
    : M (WeatherScanResult.t TempBucket WeatherOpportunity) :=
  scanDate <- match targetDate with
              | Some d => ret d
              | None => getTomorrowDate
              end;;
  lift (toISODate scanDate);;;
  t <- now w;;
  let scannedAt := JsDate.toISOString t in
  try_catch
    (markets <- findTemperatureMarkets;;
     match markets with
     | [] =>
         ret {| WeatherScanResult.markets := [];
                WeatherScanResult.forecasts := ∅;
                WeatherScanResult.opportunities := [];
                WeatherScanResult.scannedAt := scannedAt |}
     | _ =>
         let cityCodesWithMarkets := uniq [] (map WeatherMarket.cityCode markets) in
         forecasts <- fetch_forecasts cityCodesWithMarkets scanDate ∅;;
         r <- analyze markets forecasts;;
         ret {| WeatherScanResult.markets := fst r;
                WeatherScanResult.forecasts := forecasts;
                WeatherScanResult.opportunities := sort_by_edge (snd r);
                WeatherScanResult.scannedAt := scannedAt |}
     end)
    (fun error => throw error).

(** [async quickScan()]; an opportunity is an object, so
    [opportunities[0] || null] is the first one when there is one. *)
Definition quickScan : M (QuickScan.t WeatherOpportunity) :=
  result <- scan None;;
  let opportunities := WeatherScanResult.opportunities result in
  ret {| QuickScan.hasOpportunities := (0 <? length opportunities)%nat;
         QuickScan.count := length opportunities;
         QuickScan.topOpportunity := hd_error opportunities |}.

End Scan.

End Scanner.

(** ** The edge detector *)

Module EdgeDetector.

(** Modelled from the spec: [src/weather/edge-detector.ts] is imported by
    the scanner but is not part of the sources at hand.  A bucket is a
    range with two optional bounds. *)
Record TempBucket : Type := {
  lo : option Q;
  hi : option Q;
}.

(** Modelled from the spec: the [Opportunity] of the data model, which
    [edge-detector.ts] declares as [WeatherOpportunity]. *)
Record WeatherOpportunity : Type := {
  marketId : option string;
  city : string;
  targetDate : string;
  tokenId : option string;
  marketPrice : Q;
  fairProbability : Q;
  edge : Q;
}.

Section Detector.
(** The threshold is a constant of the missing module, and the
    cumulative distribution function of the standard normal law is not
    a rational function: both are parameters. *)
Variable MIN_EDGE_THRESHOLD : Q.
Variable Phi : Q -> Q.

(** Modelled from the spec: the fair probability of a bucket is
    [Phi((hi - mean) / sigma) - Phi((lo - mean) / sigma)], an absent
    bound standing for an infinite one. *)
Definition fair (forecast : DailyForecast.t) (b : TempBucket) : Q :=
  let mean := DailyForecast.highTemp forecast in
  let sigma := NWS.getStdDev (DailyForecast.confidence forecast) in
  let upper := match hi b with Some h => Phi ((h - mean) / sigma)%Q | None => 1%Q end in
  let lower := match lo b with Some l => Phi ((l - mean) / sigma)%Q | None => 0%Q end in
  (upper - lower)%Q.

(** Modelled from the spec: the opportunity reported for an outcome
    priced at [p]. *)
Definition opportunity (market : WeatherMarket.t TempBucket)
    (forecast : DailyForecast.t) (outcome : MarketOutcome.t TempBucket) (p : Q)
    : WeatherOpportunity :=
  let f := fair forecast (MarketOutcome.bucket outcome) in
  {| marketId := WeatherMarket.marketId market;
     city := WeatherMarket.cityCode market;
     targetDate := WeatherMarket.targetDate market;
     tokenId := MarketOutcome.tokenId outcome;
     marketPrice := p;
     fairProbability := f;
     edge := (f - p)%Q |}.

(** Modelled from the spec: the detector goes through the buckets in
    order and emits an opportunity when [edge >= MIN_EDGE_THRESHOLD].
    A price that is not finite yields no opportunity. *)
Definition detectOpportunities (market : WeatherMarket.t TempBucket)
    (forecast : DailyForecast.t) : list WeatherOpportunity :=
  flat_map
    (fun outcome =>
       match MarketOutcome.price outcome with
       | Js.Fin p =>
           let opp := opportunity market forecast outcome p in
           if Qle_bool MIN_EDGE_THRESHOLD (edge opp) then [opp] else []
       | _ => []
       end)
    (WeatherMarket.outcomes market).

End Detector.

End EdgeDetector.

(** ** A host for running the model *)

Module Node.

(** How Node reads the date strings that occur in the examples of this
    file, in a zone that stays [offset] milliseconds ahead of UTC:
    - [YYYY-MM-DD], alone (midnight UTC) or followed by [THH:MM:SS] and
      then [Z], [+HH:MM], [-HH:MM] or nothing (local time);
    - a month name, of which the first three letters count, blanks and a
      day number: the legacy parser, which fills the missing year with
      2001 and reads the date as local midnight.
    Other strings are not covered and come out as invalid. *)

Fixpoint digitsN (n : nat) (acc : Z) (s : string) : option (Z * string) :=
  match n with
  | O => Some (acc, s)
  | S n' =>
      match s with
      | String c r =>
          if Js.is_digit c then digitsN n' (10 * acc + Js.digit_val c) r else None
      | EmptyString => None
      end
  end.

Definition expect (c : ascii) (s : string) : option string :=
  match s with
  | String d r => if Ascii.eqb c d then Some r else None
  | EmptyString => None
  end.

(** The zone designator: the offset it denotes, in milliseconds. *)
Definition zone (offset : Z) (s : string) : option Z :=
  match s with
  | EmptyString => Some offset
  | String "Z" EmptyString => Some 0
  | String sign r =>
      '(h, r1) ← digitsN 2 0 r;
      r2 ← expect ":" r1;
      '(m, r3) ← digitsN 2 0 r2;
      if negb (String.eqb r3 "") then None
      else if Ascii.eqb sign "+" then Some ((h * 60 + m) * 60000)
      else if Ascii.eqb sign "-" then Some (- ((h * 60 + m) * 60000))
      else None
  end.

Definition iso (offset : Z) (s : string) : option Z :=
  '(y, r1) ← digitsN 4 0 s;
  r2 ← expect "-" r1;
  '(m, r3) ← digitsN 2 0 r2;
  r4 ← expect "-" r3;
  '(d, r5) ← digitsN 2 0 r4;
  let day := JsDate.days_from_civil y m d * JsDate.msPerDay in
  match r5 with
  | EmptyString => Some day
  | String "T" r6 =>
      '(hh, r7) ← digitsN 2 0 r6;
      r8 ← expect ":" r7;
      '(mm, r9) ← digitsN 2 0 r8;
      r10 ← expect ":" r9;
      '(ss, r11) ← digitsN 2 0 r10;
      z ← zone offset r11;
      Some (day + ((hh * 60 + mm) * 60 + ss) * 1000 - z)
  | _ => None
  end.

Definition months : list string :=
  ["jan"; "feb"; "mar"; "apr"; "may"; "jun"; "jul"; "aug"; "sep"; "oct"; "nov"; "dec"].

Fixpoint month_index (name : string) (l : list string) (i : Z) : option Z :=
  match l with
  | [] => None
  | m :: r => if String.eqb m name then Some i else month_index name r (i + 1)
  end.

Fixpoint skip_letters (s : string) : string :=
  match s with
  | String c r =>
      let n := nat_of_ascii (Js.lower_ascii c) in
      if ((97 <=? n)%nat && (n <=? 122)%nat || (n =? 46)%nat)%bool
      then skip_letters r else s
  | EmptyString => s
  end.

Definition legacy (offset : Z) (s : string) : option Z :=
  m ← month_index (Js.toLowerCase (Regex.take 3 s)) months 1;
  let '(d, n, rest) := Js.read_digits 0 0 (Js.skip_spaces (skip_letters s)) in
  if ((1 <=? n)%nat && (n <=? 2)%nat && String.eqb rest "" && (1 <=? d) && (d <=? 31))%bool
  then Some (JsDate.days_from_civil 2001 m d * JsDate.msPerDay - offset)
  else None.

Definition parse_date (offset : Z) (s : string) : JsDate.Date :=
  match iso offset s with
  | Some t => JsDate.Time t
  | None =>
      match legacy offset s with
      | Some t => JsDate.Time t
      | None => JsDate.Invalid
      end
  end.

(** The host in a zone with a fixed offset. *)
Definition host (offset : Z) : Host :=
  {| Date_parse := parse_date offset;
     setDate_next := fun t => t + JsDate.msPerDay;
     setHours_0 := fun t => (t + offset) / JsDate.msPerDay * JsDate.msPerDay - offset |}.

End Node.

(** ** [MarketScanner] *)

(** The scanner of the Bitcoin up/down markets, the other class of
    [src/index.ts].  Its keyword lists ([BITCOIN_MARKET_FILTER] of
    [../types]) are parameters; its client is an oracle of its own. *)
Module MarketScanner.

(** One element of [raw.tokens] or [raw.outcomes]: the fields that
    [parseMarket] reads. *)
Module RawToken.
Record t : Type := mk {
  outcome : option string;
  name : option string;
  token_id : option string;
  tokenId : option string;
  id : option string;
}.
End RawToken.

(** A raw record of the client; [closed] is the truthiness of
    [raw.closed]. *)
Module Raw.
Record t : Type := mk {
  question : option string;
  title : option string;
  description : option string;
  market_slug : option string;
  slug : option string;
  endDateIso : option string;
  end_date_iso : option string;
  endDate : option string;
  closed : bool;
  tokens : option (list RawToken.t);
  outcomes : option (list RawToken.t);
  id : option string;
  condition_id : option string;
  conditionId : option string;
}.
End Raw.

(** [interface TokenInfo] *)
Module TokenInfo.
Record t : Type := mk {
  tokenId : option string;
  outcome : option string;
  price : Js.number;
}.
End TokenInfo.

(** [interface ParsedMarket] *)
Module ParsedMarket.
Record t : Type := mk {
  id : option string;
  conditionId : option string;
  question : string;
  slug : string;
  endDate : JsDate.Date;
  upToken : option TokenInfo.t;
  downToken : option TokenInfo.t;
  isActive : bool;
  isBitcoinMarket : bool;
}.
End ParsedMarket.

(** The string with the given bytes. *)
Definition bytes (codes : list nat) : string :=
  fold_right (fun n s => String (ascii_of_nat n) s) EmptyString codes.

(** What [String.prototype.trim] strips: the white space and the line
    terminators of ECMAScript, each as its UTF-8 encoding.  No encoding is
    a prefix of another. *)
Definition white_space : list string :=
  map bytes
    [ [9]; [10]; [11]; [12]; [13];                     (* TAB LF VT FF CR *)
      [32];                                            (* SPACE *)
      [194; 160];                                      (* U+00A0 *)
      [225; 154; 128];                                 (* U+1680 *)
      [226; 128; 128]; [226; 128; 129]; [226; 128; 130]; [226; 128; 131];
      [226; 128; 132]; [226; 128; 133]; [226; 128; 134]; [226; 128; 135];
      [226; 128; 136]; [226; 128; 137]; [226; 128; 138]; (* U+2000..U+200A *)
      [226; 128; 168]; [226; 128; 169];                (* U+2028 U+2029 *)
      [226; 128; 175];                                 (* U+202F *)
      [226; 129; 159];                                 (* U+205F *)
      [227; 128; 128];                                 (* U+3000 *)
      [239; 187; 191] ]%nat.                           (* U+FEFF *)

(** The number of bytes of the blank that [s] starts with, zero when it
    starts with none. *)
Definition blank_length (s : string) : nat :=
  match List.find (fun b => String.prefix b s) white_space with
  | Some b => String.length b
  | None => 0%nat
  end.

(** [s] without its first [skip] bytes and the blanks that follow them. *)
Fixpoint drop_blanks (skip : nat) (s : string) {struct s} : string :=
  match s with
  | EmptyString => EmptyString
  | String _ r =>
      match skip with
      | S k => drop_blanks k r
      | O => match blank_length s with
             | S k => drop_blanks k r
             | O => s
             end
      end
  end.

(** [s.trimStart()] *)
Definition trim_start (s : string) : string := drop_blanks 0 s.

(** [s.trimEnd()]: the string up to the point from which only blanks
    follow. *)
Fixpoint trim_end (s : string) : string :=
  match s with
  | EmptyString => EmptyString
  | String c r =>
      if String.eqb (trim_start s) "" then EmptyString else String c (trim_end r)
  end.

(** [s.trim()] *)
Definition trim (s : string) : string := trim_end (trim_start s).

(** [private isUpOutcome(outcome)] and [private isDownOutcome(outcome)].
    Only the letters A to Z lowercase to a letter of "up" or "down", and
    lowercasing neither makes nor removes a blank, so [Js.toLowerCase]
    decides both tests as [toLowerCase] does. *)
Definition isUpOutcome (outcome : string) : bool :=
  String.eqb (trim (Js.toLowerCase outcome)) "up".
Definition isDownOutcome (outcome : string) : bool :=
  String.eqb (trim (Js.toLowerCase outcome)) "down".

(** What a client call is. *)
Inductive ClientCall : Type :=
| CallGetMarkets
| CallGetPrice (tokenId : option string)
| CallGetMarketByConditionId (conditionId : string).

(** The [PolymarketClient] as this class uses it, and the clock. *)
Record Client : Type := {
  getMarkets : list ClientCall -> Result (list Raw.t);
  getPrice : list ClientCall -> option string -> Result Js.number;
  getMarketByConditionId : list ClientCall -> string -> Result Raw.t;
  time : list ClientCall -> Z;
}.

(** The state is the log of the client calls, oldest first. *)
Definition MS := @Monad.M (list ClientCall).

Section Scanner.
Variable host : Host.
Variable client : Client.
(** [BITCOIN_MARKET_FILTER.keywords] and [.excludeKeywords] *)
Variable keywords : list string.
Variable excludeKeywords : list string.

(** [private isBitcoinMarket(question, description, slug)] *)
Definition isBitcoinMarket (question description slug : string) : bool :=
  let text := Js.toLowerCase (question ++ " " ++ description ++ " " ++ slug) in
  if Js.some (fun exclude => Js.includes text (Js.toLowerCase exclude)) excludeKeywords
  then false
  else if Js.some (fun keyword => Js.includes text (Js.toLowerCase keyword)) keywords
  then true
  else if (negb (String.eqb slug "") && Js.includes slug "btc-updown")%bool
  then true
  else false.

(** The body of the loop of [parseMarket] over the tokens: the pair of the
    up token and the down token seen so far. *)
Definition read_token (seen : option TokenInfo.t * option TokenInfo.t)
    (token : RawToken.t) : option TokenInfo.t * option TokenInfo.t :=
  let outcome :=
    Js.toLowerCase
      (Js.sor_empty (Js.sor (RawToken.outcome token) (RawToken.name token))) in
  let tokenId :=
    Js.sor (Js.sor (RawToken.token_id token) (RawToken.tokenId token))
           (RawToken.id token) in
  let info :=
    {| TokenInfo.tokenId := tokenId;
       TokenInfo.outcome := Js.sor (RawToken.outcome token) (RawToken.name token);
       TokenInfo.price := Js.Fin 0 |} in
  if isUpOutcome outcome then (Some info, snd seen)
  else if isDownOutcome outcome then (fst seen, Some info)
  else seen.

(** [private async parseMarket(raw)], at time [t_now]; on the typed records
    nothing in it throws. *)
Definition parseMarket (t_now : Z) (raw : Raw.t) : option ParsedMarket.t :=
  let question := Js.sor_empty (Js.sor (Raw.question raw) (Raw.title raw)) in
  let description := Js.sor_empty (Raw.description raw) in
  let slug := Js.sor_empty (Js.sor (Raw.market_slug raw) (Raw.slug raw)) in
  let isBitcoin := isBitcoinMarket question description slug in
  let endDate :=
    match Js.sor (Js.sor (Raw.endDateIso raw) (Raw.end_date_iso raw)) (Raw.endDate raw) with
    | Some text => Date_parse host text
    | None => JsDate.Invalid
    end in
  let isActive :=
    (negb (Raw.closed raw)
     && match endDate with
        | JsDate.Time t => t_now <? t
        | JsDate.Invalid => false
        end)%bool in
  let tokens :=
    match Js.aor (Raw.tokens raw) (Raw.outcomes raw) with
    | Some l => l
    | None => []
    end in
  match fold_left read_token tokens (None, None) with
  | (Some upToken, Some downToken) =>
      Some {| ParsedMarket.id := Js.sor (Raw.id raw) (Raw.condition_id raw);
              ParsedMarket.conditionId :=
                Js.sor (Js.sor (Raw.condition_id raw) (Raw.conditionId raw)) (Raw.id raw);
              ParsedMarket.question := question;
              ParsedMarket.slug := slug;
              ParsedMarket.endDate := endDate;
              ParsedMarket.upToken := Some upToken;
              ParsedMarket.downToken := Some downToken;
              ParsedMarket.isActive := isActive;
              ParsedMarket.isBitcoinMarket := isBitcoin |}
  | _ => None
  end.

(** A call of the client: logged, then answered. *)
Definition call {A} (c : ClientCall) (answer : list ClientCall -> Result A) : MS A :=
  fun log => (answer log, (log ++ [c])%list).

Definition now : MS Z := fun log => (Ok (time client log), log).

(** [token.price = await this.client.getPrice(token.tokenId)] when the
    token is there. *)
Definition price_token (token : option TokenInfo.t) : MS (option TokenInfo.t) :=
  match token with
  | Some t =>
      price <- call (CallGetPrice (TokenInfo.tokenId t))
                    (fun log => getPrice client log (TokenInfo.tokenId t));;
      ret (Some {| TokenInfo.tokenId := TokenInfo.tokenId t;
                   TokenInfo.outcome := TokenInfo.outcome t;
                   TokenInfo.price := price |})
  | None => ret None
  end.

(** The loop of [scanBitcoinMarkets] over the raw markets. *)
Fixpoint scan_markets (rawMarkets : list Raw.t) (bitcoinMarkets : list ParsedMarket.t)
    : MS (list ParsedMarket.t) :=
  match rawMarkets with
  | [] => ret bitcoinMarkets
  | market :: rest =>
      t <- now;;
      match parseMarket t market with
      | Some parsed =>
          if (ParsedMarket.isBitcoinMarket parsed && ParsedMarket.isActive parsed)%bool
          then
            up <- price_token (ParsedMarket.upToken parsed);;
            down <- price_token (ParsedMarket.downToken parsed);;
            scan_markets rest
              (bitcoinMarkets ++
               [ {| ParsedMarket.id := ParsedMarket.id parsed;
                    ParsedMarket.conditionId := ParsedMarket.conditionId parsed;
                    ParsedMarket.question := ParsedMarket.question parsed;
                    ParsedMarket.slug := ParsedMarket.slug parsed;
                    ParsedMarket.endDate := ParsedMarket.endDate parsed;
                    ParsedMarket.upToken := up;
                    ParsedMarket.downToken := down;
                    ParsedMarket.isActive := ParsedMarket.isActive parsed;
                    ParsedMarket.isBitcoinMarket :=
                      ParsedMarket.isBitcoinMarket parsed |} ])%list
          else scan_markets rest bitcoinMarkets
      | None => scan_markets rest bitcoinMarkets
      end
  end.

(** [async scanBitcoinMarkets()] *)
Definition scanBitcoinMarkets : MS (list ParsedMarket.t) :=
  try_catch
    (rawMarkets <- call CallGetMarkets (getMarkets client);;
     scan_markets rawMarkets [])
    (fun error => throw error).

(** [async getMarketDetails(conditionId)] *)
Definition getMarketDetails (conditionId : string) : MS (option ParsedMarket.t) :=
  try_catch
    (raw <- call (CallGetMarketByConditionId conditionId)
                 (fun log => getMarketByConditionId client log conditionId);;
     t <- now;;
     ret (parseMarket t raw))
    (fun error => ret None).

End Scanner.

End MarketScanner.

(** Vocabulary of the statements about [MarketScanner]. *)
Module BitcoinSpec.
Import MarketScanner.

(** The tokens that [parseMarket] goes through. *)
Definition raw_tokens (raw : Raw.t) : list RawToken.t :=
  match Js.aor (Raw.tokens raw) (Raw.outcomes raw) with
  | Some l => l
  | None => []
  end.

(** The outcome text of a raw token, as [parseMarket] lowercases it. *)
Definition outcome_text (token : RawToken.t) : string :=
  Js.toLowerCase (Js.sor_empty (Js.sor (RawToken.outcome token) (RawToken.name token))).

Definition reads_up (token : RawToken.t) : Prop := isUpOutcome (outcome_text token) = true.
Definition reads_down (token : RawToken.t) : Prop :=
  isDownOutcome (outcome_text token) = true.

(** The market that the scan keeps for a raw record at time [t], if it
    keeps one: parsed, a Bitcoin market, and active. *)
Definition kept (host : Host) (keywords excludeKeywords : list string) (t : Z)
    (raw : Raw.t) : option ParsedMarket.t :=
  match parseMarket host keywords excludeKeywords t raw with
  | Some p =>
      if (ParsedMarket.isBitcoinMarket p && ParsedMarket.isActive p)%bool
      then Some p else None
  | None => None
  end.

(** The price requests that a market costs. *)
Definition token_call (token : option TokenInfo.t) : list ClientCall :=
  match token with
  | Some t => [CallGetPrice (TokenInfo.tokenId t)]
  | None => []
  end.
Definition market_calls (p : ParsedMarket.t) : list ClientCall :=
  (token_call (ParsedMarket.upToken p) ++ token_call (ParsedMarket.downToken p))%list.

(** The markets [ms] are what a scan returns when it starts with the log
    [log]: each is a Bitcoin market, active, and carries for its up token
    and then its down token the price that the client answered. *)
Fixpoint priced (client : Client) (log : list ClientCall) (ms : list ParsedMarket.t)
    : Prop :=
  match ms with
  | [] => True
  | p :: rest =>
      ParsedMarket.isBitcoinMarket p = true
      /\ ParsedMarket.isActive p = true
      /\ (exists u d,
            ParsedMarket.upToken p = Some u
            /\ ParsedMarket.downToken p = Some d
            /\ getPrice client log (TokenInfo.tokenId u) = Ok (TokenInfo.price u)
            /\ getPrice client (log ++ [CallGetPrice (TokenInfo.tokenId u)])
                         (TokenInfo.tokenId d) = Ok (TokenInfo.price d))
      /\ priced client (log ++ market_calls p) rest
  end.

End BitcoinSpec.

(** ** Vocabulary of the statements *)

Module Spec.
Import NWS.

(** Lead time in hours: [max(0, targetDate - now)], from milliseconds. *)
Definition lead_hours (target t_now : Z) : Q :=
  if target - t_now <? 0 then 0%Q
  else (inject_Z (target - t_now) / inject_Z 3600000)%Q.


(** The same, as the test that [filter_day] runs. *)
Definition on_day (host : Host) (day : string) (h : HourlyForecast.t) : bool :=
  match Date_parse host (HourlyForecast.startTime h) with
  | JsDate.Time t => String.eqb (JsDate.isoDate t) day
  | JsDate.Invalid => false
  end.

(** The daily summary built from the periods [first :: others] of the
    target day, the clock being read in state [s]. *)
Definition summary (w : World) (target : Z) (s : State)
    (first : HourlyForecast.t) (others : list HourlyForecast.t) : DailyForecast.t :=
  let hoursUntil :=
    Math_max0 (inject_Z (target - clock w (calls s)) / inject_Z JsDate.msPerHour) in
  {| DailyForecast.date := JsDate.isoDate target;
     DailyForecast.highTemp :=
       Math_max (HourlyForecast.temperature first)
                (map HourlyForecast.temperature others);
     DailyForecast.lowTemp :=
       Math_min (HourlyForecast.temperature first)
                (map HourlyForecast.temperature others);
     DailyForecast.confidence := confidence_of hoursUntil;
     DailyForecast.hoursUntil := Math_round hoursUntil;
     DailyForecast.shortForecast :=
       match List.filter HourlyForecast.isDaytime (first :: others) with
       | d :: _ => HourlyForecast.shortForecast d
       | [] => HourlyForecast.shortForecast first
       end |}.

(** A client that has not run yet. *)
Definition fresh : State := {| gridPointCache := ∅; calls := [] |}.

(** A raw record with [description] and [slug] replaced. *)
Definition with_texts (description slug : option string) (m : RawMarket.t)
    : RawMarket.t :=
  {| RawMarket.question := RawMarket.question m;
     RawMarket.title := RawMarket.title m;
     RawMarket.description := description;
     RawMarket.slug := slug;
     RawMarket.endDate := RawMarket.endDate m;
     RawMarket.outcomes := RawMarket.outcomes m;
     RawMarket.tokens := RawMarket.tokens m;
     RawMarket.id := RawMarket.id m;
     RawMarket.conditionId := RawMarket.conditionId m |}.

(** The label that [parseOutcomes] reads off a raw outcome, and the token
    identifier it keeps. *)
Definition label (o : RawOutcome.t) : string :=
  Js.sor_empty (Js.sor (Js.sor (RawOutcome.outcome o) (RawOutcome.name o))
                       (RawOutcome.title o)).
Definition token (o : RawOutcome.t) : option string :=
  Js.sor (Js.sor (RawOutcome.tokenId o) (RawOutcome.token_id o)) (RawOutcome.id o).

(** The log entry of the price request for an outcome. *)
Definition price_call {B} (o : MarketOutcome.t B) : Request :=
  GetPrice (MarketOutcome.tokenId o).

(** The price of an outcome after a refresh, given what the price
    service answered. *)
Definition refreshed_price (answer : Result Js.number) (old : Js.number) : Js.number :=
  match answer with
  | Ok p => if Js.gt0 p then p else old
  | Throw _ => old
  end.

(** The outcomes after [updateMarketPrices], the log being [log] when it
    starts. *)
Fixpoint refreshed {B} (w : World) (log : list Request) (os : list (MarketOutcome.t B))
    : list (MarketOutcome.t B) :=
  match os with
  | [] => []
  | o :: r =>
      {| MarketOutcome.tokenId := MarketOutcome.tokenId o;
         MarketOutcome.bucket := MarketOutcome.bucket o;
         MarketOutcome.price :=
           refreshed_price (getPrice w log (MarketOutcome.tokenId o))
                           (MarketOutcome.price o) |}
      :: refreshed w (log ++ [price_call o]) r
  end.

(** A computation that never throws. *)
Definition total {A} (m : M A) : Prop :=
  forall s, exists a s', m s = (Ok a, s').

(** The two queries of market discovery. *)
Definition primary_url : string :=
  Scanner.GAMMA_API_URL ++ "/markets?closed=false&limit=100&tag=weather".
Definition fallback_url (keyword : string) : string :=
  Scanner.GAMMA_API_URL ++ "/markets?closed=false&limit=50&_q=" ++ keyword.

(** The price requests of a scan: those of the markets whose city has a
    forecast, in order. *)
Definition price_calls {B} (forecasts : gmap string DailyForecast.t)
    (markets : list (WeatherMarket.t B)) : list Request :=
  flat_map (fun m => match forecasts !! WeatherMarket.cityCode m with
                     | Some _ => map price_call (WeatherMarket.outcomes m)
                     | None => []
                     end) markets.

(** The state once the primary query of market discovery is logged. *)
Definition after_primary (s : State) : State :=
  {| gridPointCache := gridPointCache s; calls := calls s ++ [Fetch primary_url] |}.



(** The outcomes that [parseOutcomes] goes through. *)
Definition raw_outcomes (m : RawMarket.t) : list RawOutcome.t :=
  match Js.aor (RawMarket.outcomes m) (RawMarket.tokens m) with
  | Some l => l
  | None => []
  end.

(** The price that [parseOutcomes] reads off a raw outcome. *)
Definition listed_price (o : RawOutcome.t) : Js.number :=
  Js.parseFloat
    (Js.or (Js.or (RawOutcome.price o) (RawOutcome.lastTradePrice o)) (Js.Str "0.5")).

End Spec.

(** ** Sample data *)

Module Example.

Definition gridPoint : GridPoint.t :=
  {| GridPoint.office := "OKX";
     GridPoint.gridX := 33;
     GridPoint.gridY := 35;
     GridPoint.forecastUrl := "https://api.weather.gov/gridpoints/OKX/33,35/forecast";
     GridPoint.forecastHourlyUrl :=
       "https://api.weather.gov/gridpoints/OKX/33,35/forecast/hourly" |}.

Definition period (start : string) (temp : Q) (day : bool) (text : string)
    : HourlyForecast.t :=
  {| HourlyForecast.startTime := start;
     HourlyForecast.endTime := start;
     HourlyForecast.temperature := temp;
     HourlyForecast.temperatureUnit := "F";
     HourlyForecast.isDaytime := day;
     HourlyForecast.shortForecast := text |}.

(** Four hourly periods; in UTC the first falls on 2025-12-24, the next
    two on 2025-12-25 and the last on 2025-12-26. *)
Definition periods : list HourlyForecast.t :=
  [ period "2025-12-24T17:00:00-05:00" 30 false "Clear";
    period "2025-12-25T09:00:00-05:00" 34 true "Sunny";
    period "2025-12-25T14:00:00-05:00" 41 true "Mostly Sunny";
    period "2025-12-25T19:00:00-05:00" 36 false "Partly Cloudy" ].

(** 2025-12-25T00:00:00Z and 2025-12-30T00:00:00Z *)
Definition dec25 : Z := 1766620800000.

(** A world in which the forecast service answers and the clock shows
    [t_now]; the market listing is empty and prices are unavailable. *)
Definition world (t_now : Z) : World :=
  {| points := fun _ _ => Body (Ok gridPoint);
     hourly := fun _ _ => Body (Ok periods);
     listMarkets := fun _ _ => Body (Ok []);
     getPrice := fun _ _ => Throw (HostError "no price");
     clock := fun _ => t_now |}.

(** A world in which the forecast service knows no point. *)
Definition not_found : World :=
  {| points := fun _ _ => NotOk "404" "Not Found";
     hourly := fun _ _ => NotOk "404" "Not Found";
     listMarkets := fun _ _ => Body (Ok []);
     getPrice := fun _ _ => Throw (HostError "no price");
     clock := fun _ => 0 |}.

(** The state of a fresh client after one forecast for New York. *)
Definition after_forecast : State :=
  {| gridPointCache := <["40.7128,-74.006" := gridPoint]> ∅;
     calls := [ Fetch "https://api.weather.gov/points/40.7128,-74.006";
                Fetch "https://api.weather.gov/gridpoints/OKX/33,35/forecast/hourly" ] |}.

Definition outcome (label : string) (token : string) (price : Js.value) : RawOutcome.t :=
  {| RawOutcome.outcome := Some label;
     RawOutcome.name := None;
     RawOutcome.title := None;
     RawOutcome.tokenId := Some token;
     RawOutcome.token_id := None;
     RawOutcome.id := None;
     RawOutcome.price := price;
     RawOutcome.lastTradePrice := Js.Undefined |}.

(** The raw record of the parse scenario: a question with a short month
    name and no end date. *)
Definition dec25_market : RawMarket.t :=
  {| RawMarket.question := Some "NYC High Temp Dec 25";
     RawMarket.title := None;
     RawMarket.description := None;
     RawMarket.slug := None;
     RawMarket.endDate := None;
     RawMarket.outcomes :=
       Some [ outcome "40-44°F" "tok-a" (Js.Str "0.30");
              outcome "45°F or above" "tok-b" Js.Undefined ];
     RawMarket.tokens := None;
     RawMarket.id := Some "m-1";
     RawMarket.conditionId := Some "c-1" |}.

(** A record that names the temperature in its description and slug
    only. *)
Definition described_market : RawMarket.t :=
  {| RawMarket.question := Some "Will New York be hot on Dec 25?";
     RawMarket.title := None;
     RawMarket.description :=
       Some "Resolves to the high temperature recorded in Central Park.";
     RawMarket.slug := Some "nyc-high-temperature-dec-25";
     RawMarket.endDate := Some "2025-12-25";
     RawMarket.outcomes :=
       Some [ outcome "40-44°F" "tok-a" (Js.Str "0.30");
              outcome "45°F or above" "tok-b" Js.Undefined ];
     RawMarket.tokens := None;
     RawMarket.id := Some "m-2";
     RawMarket.conditionId := Some "c-2" |}.

(** The same record with the temperature named in the question. *)
Definition asked_market : RawMarket.t :=
  {| RawMarket.question := Some "High temperature in New York on Dec 25?";
     RawMarket.title := None;
     RawMarket.description :=
       Some "Resolves to the high temperature recorded in Central Park.";
     RawMarket.slug := Some "nyc-high-temperature-dec-25";
     RawMarket.endDate := Some "2025-12-25";
     RawMarket.outcomes :=
       Some [ outcome "40-44°F" "tok-a" (Js.Str "0.30");
              outcome "45°F or above" "tok-b" Js.Undefined ];
     RawMarket.tokens := None;
     RawMarket.id := Some "m-2";
     RawMarket.conditionId := Some "c-2" |}.

(** A stand-in for the bucket parser: every label is a bucket, kept as
    text. *)
Definition any_bucket (label : string) : option string := Some label.

(** A normalized market with three buckets. *)
Definition market : WeatherMarket.t string :=
  {| WeatherMarket.marketId := Some "m-2";
     WeatherMarket.conditionId := Some "c-2";
     WeatherMarket.city := "New York City";
     WeatherMarket.cityCode := "NYC";
     WeatherMarket.targetDate := "2025-12-25";
     WeatherMarket.outcomes :=
       [ {| MarketOutcome.tokenId := Some "tok-a";
            MarketOutcome.bucket := "40-44°F";
            MarketOutcome.price := Js.Fin 0.3 |};
         {| MarketOutcome.tokenId := Some "tok-b";
            MarketOutcome.bucket := "45°F or above";
            MarketOutcome.price := Js.Fin 0.5 |};
         {| MarketOutcome.tokenId := Some "tok-c";
            MarketOutcome.bucket := "39°F or below";
            MarketOutcome.price := Js.Fin 0.2 |} ];
     WeatherMarket.question := Some "High temperature in New York on Dec 25?" |}.

(** A price service that fails for the first token, quotes zero for the
    second and 0.25 for any other. *)
Definition quote (log : list Request) (tokenId : option string) : Result Js.number :=
  match tokenId with
  | Some t =>
      if String.eqb t "tok-a" then Throw (HostError "timeout")
      else if String.eqb t "tok-b" then Ok (Js.Fin 0)
      else Ok (Js.Fin 0.25)
  | None => Throw (HostError "no token")
  end.

(** A world in which every service answers; the listing holds the two
    records above. *)
Definition trading : World :=
  {| points := fun _ _ => Body (Ok gridPoint);
     hourly := fun _ _ => Body (Ok periods);
     listMarkets := fun _ _ => Body (Ok [described_market; asked_market]);
     getPrice := quote;
     clock := fun _ => dec25 - 24 * 3600000 |}.


(** A stand-in for the detector: one opportunity per outcome with a finite
    price, whose edge is one minus the price. *)
Definition detect (m : WeatherMarket.t string) (f : DailyForecast.t) : list Q :=
  flat_map (fun o => match MarketOutcome.price o with
                     | Js.Fin p => [(1 - p)%Q]
                     | _ => []
                     end)
           (WeatherMarket.outcomes m).

(** A piecewise linear stand-in for the normal distribution function,
    through (-3, 0), (-1, 0.1587), (1, 0.8413) and (3, 1). *)
Definition Phi (x : Q) : Q :=
  if Qle_bool x (-3) then 0
  else if Qle_bool x (-1) then (x + 3) * 0.07935
  else if Qle_bool x 1 then 0.5 + x * 0.3413
  else if Qle_bool x 3 then 0.8413 + (x - 1) * 0.07935
  else 1.

(** The forecast of the end-to-end scenario: a high of 75 with high
    confidence. *)
Definition forecast : DailyForecast.t :=
  {| DailyForecast.date := "2025-12-25";
     DailyForecast.highTemp := 75;
     DailyForecast.lowTemp := 61;
     DailyForecast.confidence := high;
     DailyForecast.hoursUntil := 36;
     DailyForecast.shortForecast := "Sunny" |}.

Definition bucket_73_77 : MarketOutcome.t EdgeDetector.TempBucket :=
  {| MarketOutcome.tokenId := Some "tok-73-77";
     MarketOutcome.bucket := {| EdgeDetector.lo := Some 73%Q; EdgeDetector.hi := Some 77%Q |};
     MarketOutcome.price := Js.Fin 0.6326 |}.

Definition bucket_95_up : MarketOutcome.t EdgeDetector.TempBucket :=
  {| MarketOutcome.tokenId := Some "tok-95-up";
     MarketOutcome.bucket := {| EdgeDetector.lo := Some 95%Q; EdgeDetector.hi := None |};
     MarketOutcome.price := Js.Fin 0.5 |}.

(** A market whose first bucket is priced exactly 0.05 under its fair
    probability for [Phi], which is 0.6826. *)
Definition bucket_market : WeatherMarket.t EdgeDetector.TempBucket :=
  {| WeatherMarket.marketId := Some "m-3";
     WeatherMarket.conditionId := Some "c-3";
     WeatherMarket.city := "Miami";
     WeatherMarket.cityCode := "Miami";
     WeatherMarket.targetDate := "2025-12-25";
     WeatherMarket.outcomes := [bucket_73_77; bucket_95_up];
     WeatherMarket.question := Some "High temperature in Miami on Dec 25?" |}.


(** The forecast that the sample periods give for 2025-12-25, seen a day
    ahead and seen an hour late. *)
Definition forecast_ahead : DailyForecast.t :=
  {| DailyForecast.date := "2025-12-25";
     DailyForecast.highTemp := 41;
     DailyForecast.lowTemp := 34;
     DailyForecast.confidence := very_high;
     DailyForecast.hoursUntil := 24;
     DailyForecast.shortForecast := "Sunny" |}.
Definition forecast_late : DailyForecast.t :=
  {| DailyForecast.date := "2025-12-25";
     DailyForecast.highTemp := 41;
     DailyForecast.lowTemp := 34;
     DailyForecast.confidence := very_high;
     DailyForecast.hoursUntil := 0;
     DailyForecast.shortForecast := "Sunny" |}.

(** The sample periods followed by one whose start time is no date. *)
Definition garbled_period : HourlyForecast.t := period "soon" 50 true "Unknown".
Definition garbled_periods : list HourlyForecast.t :=
  (periods ++ [garbled_period])%list.
Definition garbled : World :=
  {| points := fun _ _ => Body (Ok gridPoint);
     hourly := fun _ _ => Body (Ok garbled_periods);
     listMarkets := fun _ _ => Body (Ok []);
     getPrice := fun _ _ => Throw (HostError "no price");
     clock := fun _ => 0 |}.

(** What [asked_market] parses to. *)
Definition asked_parsed : WeatherMarket.t string :=
  {| WeatherMarket.marketId := Some "m-2";
     WeatherMarket.conditionId := Some "c-2";
     WeatherMarket.city := "New York City";
     WeatherMarket.cityCode := "NYC";
     WeatherMarket.targetDate := "2025-12-25";
     WeatherMarket.outcomes :=
       [ {| MarketOutcome.tokenId := Some "tok-a";
            MarketOutcome.bucket := "40-44°F";
            MarketOutcome.price := Js.Fin 0.3 |};
         {| MarketOutcome.tokenId := Some "tok-b";
            MarketOutcome.bucket := "45°F or above";
            MarketOutcome.price := Js.Fin (1 # 2) |} ];
     WeatherMarket.question := Some "High temperature in New York on Dec 25?" |}.

(** A market about Dallas, and what it parses to. *)
Definition dallas_market : RawMarket.t :=
  {| RawMarket.question := Some "Dallas high temperature on Dec 25?";
     RawMarket.title := None;
     RawMarket.description := None;
     RawMarket.slug := None;
     RawMarket.endDate := Some "2025-12-25";
     RawMarket.outcomes := Some [ outcome "70-74°F" "tok-d" (Js.Str "0.40") ];
     RawMarket.tokens := None;
     RawMarket.id := Some "m-4";
     RawMarket.conditionId := Some "c-4" |}.
Definition dallas_parsed : WeatherMarket.t string :=
  {| WeatherMarket.marketId := Some "m-4";
     WeatherMarket.conditionId := Some "c-4";
     WeatherMarket.city := "Los Angeles";
     WeatherMarket.cityCode := "LA";
     WeatherMarket.targetDate := "2025-12-25";
     WeatherMarket.outcomes :=
       [ {| MarketOutcome.tokenId := Some "tok-d";
            MarketOutcome.bucket := "70-74°F";
            MarketOutcome.price := Js.Fin (2 # 5) |} ];
     WeatherMarket.question := Some "Dallas high temperature on Dec 25?" |}.

(** A temperature market whose end date is no date, and a listing whose
    primary answer holds it after a good record. *)
Definition undated_market : RawMarket.t :=
  {| RawMarket.question := Some "Miami high temperature tomorrow?";
     RawMarket.title := None;
     RawMarket.description := None;
     RawMarket.slug := None;
     RawMarket.endDate := Some "to be announced";
     RawMarket.outcomes := Some [ outcome "80-84°F" "tok-m" (Js.Str "0.40") ];
     RawMarket.tokens := None;
     RawMarket.id := Some "m-5";
     RawMarket.conditionId := Some "c-5" |}.
Definition undated_listing : World :=
  {| points := fun _ _ => Body (Ok gridPoint);
     hourly := fun _ _ => Body (Ok periods);
     listMarkets := fun _ url =>
       if String.eqb url "https://gamma-api.polymarket.com/markets?closed=false&limit=100&tag=weather"
       then Body (Ok [asked_market; undated_market])
       else NotOk "500" "Internal Server Error";
     getPrice := quote;
     clock := fun _ => dec25 - 24 * 3600000 |}.

(** The sample market after a refresh by [quote]. *)
Definition refreshed_market : WeatherMarket.t string :=
  {| WeatherMarket.marketId := Some "m-2";
     WeatherMarket.conditionId := Some "c-2";
     WeatherMarket.city := "New York City";
     WeatherMarket.cityCode := "NYC";
     WeatherMarket.targetDate := "2025-12-25";
     WeatherMarket.outcomes :=
       [ {| MarketOutcome.tokenId := Some "tok-a";
            MarketOutcome.bucket := "40-44°F";
            MarketOutcome.price := Js.Fin 0.3 |};
         {| MarketOutcome.tokenId := Some "tok-b";
            MarketOutcome.bucket := "45°F or above";
            MarketOutcome.price := Js.Fin 0.5 |};
         {| MarketOutcome.tokenId := Some "tok-c";
            MarketOutcome.bucket := "39°F or below";
            MarketOutcome.price := Js.Fin 0.25 |} ];
     WeatherMarket.question := Some "High temperature in New York on Dec 25?" |}.

(** A raw outcome priced at a numeric zero, with a last trade at 0.42. *)
Definition zero_priced : RawOutcome.t :=
  {| RawOutcome.outcome := Some "50-54°F";
     RawOutcome.name := None;
     RawOutcome.title := None;
     RawOutcome.tokenId := Some "tok-z";
     RawOutcome.token_id := None;
     RawOutcome.id := None;
     RawOutcome.price := Js.Num (Js.Fin 0);
     RawOutcome.lastTradePrice := Js.Str "0.42" |}.
Definition zero_priced_market : RawMarket.t :=
  {| RawMarket.question := Some "Seattle high temperature on Dec 25?";
     RawMarket.title := None;
     RawMarket.description := None;
     RawMarket.slug := None;
     RawMarket.endDate := Some "2025-12-25";
     RawMarket.outcomes := Some [ zero_priced ];
     RawMarket.tokens := None;
     RawMarket.id := Some "m-6";
     RawMarket.conditionId := Some "c-6" |}.

(** The record of the parse scenario with the word "temperature" spelled
    out, so that it passes the keyword test, and what it parses to under
    Node in a zone at UTC. *)
Definition spelled_market : RawMarket.t :=
  {| RawMarket.question := Some "NYC high temperature Dec 25";
     RawMarket.title := None;
     RawMarket.description := None;
     RawMarket.slug := None;
     RawMarket.endDate := None;
     RawMarket.outcomes :=
       Some [ outcome "40-44°F" "tok-a" (Js.Str "0.30");
              outcome "45°F or above" "tok-b" Js.Undefined ];
     RawMarket.tokens := None;
     RawMarket.id := Some "m-7";
     RawMarket.conditionId := Some "c-7" |}.
Definition spelled_parsed : WeatherMarket.t string :=
  {| WeatherMarket.marketId := Some "m-7";
     WeatherMarket.conditionId := Some "c-7";
     WeatherMarket.city := "New York City";
     WeatherMarket.cityCode := "NYC";
     WeatherMarket.targetDate := "2001-12-25";
     WeatherMarket.outcomes :=
       [ {| MarketOutcome.tokenId := Some "tok-a";
            MarketOutcome.bucket := "40-44°F";
            MarketOutcome.price := Js.Fin 0.3 |};
         {| MarketOutcome.tokenId := Some "tok-b";
            MarketOutcome.bucket := "45°F or above";
            MarketOutcome.price := Js.Fin (1 # 2) |} ];
     WeatherMarket.question := Some "NYC high temperature Dec 25" |}.

(** A world whose market listing holds the record of the parse scenario
    and its spelled-out twin, the clock showing [t_now]. *)
Definition christmas_listing (t_now : Z) : World :=
  {| points := fun _ _ => Body (Ok gridPoint);
     hourly := fun _ _ => Body (Ok periods);
     listMarkets := fun _ _ => Body (Ok [dec25_market; spelled_market]);
     getPrice := quote;
     clock := fun _ => t_now |}.

(** 2025-12-26T00:00:00Z *)
Definition dec26 : Z := 1766707200000.

(** The forecast that the sample periods give for 2025-12-26, seen from
    the epoch: its only period starts at 19:00 on 25 December, New York
    time. *)
Definition forecast_dec26 : DailyForecast.t :=
  {| DailyForecast.date := "2025-12-26";
     DailyForecast.highTemp := 36;
     DailyForecast.lowTemp := 36;
     DailyForecast.confidence := low;
     DailyForecast.hoursUntil := 490752;
     DailyForecast.shortForecast := "Partly Cloudy" |}.

(** *** Bitcoin markets *)

Definition keywords : list string := ["bitcoin up or down"; "btc"].
Definition excludeKeywords : list string := ["ethereum"; "solana"].

Definition btc_token (outcome token : string) : MarketScanner.RawToken.t :=
  {| MarketScanner.RawToken.outcome := Some outcome;
     MarketScanner.RawToken.name := None;
     MarketScanner.RawToken.token_id := Some token;
     MarketScanner.RawToken.tokenId := None;
     MarketScanner.RawToken.id := None |}.

Definition btc_record (question slug : string) (up down : string) : MarketScanner.Raw.t :=
  {| MarketScanner.Raw.question := Some question;
     MarketScanner.Raw.title := None;
     MarketScanner.Raw.description := None;
     MarketScanner.Raw.market_slug := Some slug;
     MarketScanner.Raw.slug := None;
     MarketScanner.Raw.endDateIso := Some "2025-12-25T20:15:00Z";
     MarketScanner.Raw.end_date_iso := None;
     MarketScanner.Raw.endDate := None;
     MarketScanner.Raw.closed := false;
     MarketScanner.Raw.tokens := Some [ btc_token " Up " up; btc_token "DOWN" down ];
     MarketScanner.Raw.outcomes := None;
     MarketScanner.Raw.id := Some slug;
     MarketScanner.Raw.condition_id := None;
     MarketScanner.Raw.conditionId := None |}.

Definition btc_raw : MarketScanner.Raw.t :=
  btc_record "Bitcoin Up or Down - December 25, 3PM ET" "btc-updown-15m-1766693700"
             "u-1" "d-1".
Definition eth_raw : MarketScanner.Raw.t :=
  btc_record "Ethereum Up or Down - December 25, 3PM ET" "eth-updown-15m-1766693700"
             "u-2" "d-2".

(** A client that lists both records and quotes 0.52 for every token but
    [failing], for which it throws. *)
Definition btc_client (failing : string) : MarketScanner.Client :=
  {| MarketScanner.getMarkets := fun _ => Ok [eth_raw; btc_raw];
     MarketScanner.getPrice := fun _ token =>
       match token with
       | Some t => if String.eqb t failing then Throw (HostError "timeout")
                   else Ok (Js.Fin 0.52)
       | None => Throw (HostError "no token")
       end;
     MarketScanner.getMarketByConditionId := fun _ _ => Ok btc_raw;
     MarketScanner.time := fun _ => dec25 |}.

(** A record whose outcome texts carry blanks outside ASCII: a no-break
    space before and a byte order mark after "Up", an em space after
    "down". *)
Definition up_in_blanks : string :=
  MarketScanner.bytes [194; 160]%nat ++ "Up" ++ MarketScanner.bytes [239; 187; 191]%nat.
Definition down_in_blanks : string := "down" ++ MarketScanner.bytes [226; 128; 131]%nat.
Definition blanks_raw : MarketScanner.Raw.t :=
  {| MarketScanner.Raw.question := Some "Bitcoin Up or Down - December 25, 3PM ET";
     MarketScanner.Raw.title := None;
     MarketScanner.Raw.description := None;
     MarketScanner.Raw.market_slug := Some "btc-updown-15m-1766693700";
     MarketScanner.Raw.slug := None;
     MarketScanner.Raw.endDateIso := Some "2025-12-25T20:15:00Z";
     MarketScanner.Raw.end_date_iso := None;
     MarketScanner.Raw.endDate := None;
     MarketScanner.Raw.closed := false;
     MarketScanner.Raw.tokens :=
       Some [ btc_token up_in_blanks "u-3"; btc_token "Sideways" "s-3";
              btc_token down_in_blanks "d-3" ];
     MarketScanner.Raw.outcomes := None;
     MarketScanner.Raw.id := Some "btc-updown-15m-1766693700";
     MarketScanner.Raw.condition_id := None;
     MarketScanner.Raw.conditionId := None |}.

(** What the scan keeps of [btc_raw], before and after pricing. *)
Definition btc_info (outcome token : string) (price : Q) : MarketScanner.TokenInfo.t :=
  {| MarketScanner.TokenInfo.tokenId := Some token;
     MarketScanner.TokenInfo.outcome := Some outcome;
     MarketScanner.TokenInfo.price := Js.Fin price |}.
Definition btc_parsed (price : Q) : MarketScanner.ParsedMarket.t :=
  {| MarketScanner.ParsedMarket.id := Some "btc-updown-15m-1766693700";
     MarketScanner.ParsedMarket.conditionId := Some "btc-updown-15m-1766693700";
     MarketScanner.ParsedMarket.question := "Bitcoin Up or Down - December 25, 3PM ET";
     MarketScanner.ParsedMarket.slug := "btc-updown-15m-1766693700";
     MarketScanner.ParsedMarket.endDate := JsDate.Time 1766693700000;
     MarketScanner.ParsedMarket.upToken := Some (btc_info " Up " "u-1" price);
     MarketScanner.ParsedMarket.downToken := Some (btc_info "DOWN" "d-1" price);
     MarketScanner.ParsedMarket.isActive := true;
     MarketScanner.ParsedMarket.isBitcoinMarket := true |}.

End Example.


(** * Properties *)

Section MonadFacts.
Context {St : Type}.

(** A handler that only rethrows changes nothing. *)
Lemma try_rethrow {A} (m : @Monad.M St A) (s : St) :
  try_catch m (fun error => throw error) s = m s.
Proof.
  unfold try_catch, throw. destruct (m s) as [[a | e] s']; reflexivity.
Qed.


Lemma bind_throw {A B} (m : @Monad.M St A) (k : A -> @Monad.M St B) s e s' :
  m s = (Throw e, s') -> bind m k s = (Throw e, s').
Proof. intros H. unfold bind. rewrite H. reflexivity. Qed.
End MonadFacts.

(** ** The forecast client *)

Module NWSFacts.
Import NWS Spec.

(** [getStdDev] never yields zero or less. *)
Lemma getStdDev_pos c : (0 < getStdDev c)%Q.
Proof. destruct c; reflexivity. Qed.

(** [getDailyHigh] step by step, for a key that [CITIES] resolves. *)
Lemma getDailyHigh_run host w cityCode target s :
  CITIES cityCode <> Absent ->
  getDailyHigh host w cityCode (JsDate.Time target) s =
    match getHourlyForecast w (lat_text (CITIES cityCode))
                            (lon_text (CITIES cityCode)) s with
    | (Throw e, s1) => (Throw e, s1)
    | (Ok hs, s1) =>
        match filter_day host (JsDate.isoDate target) hs with
        | Throw e => (Throw e, s1)
        | Ok [] => (Ok None, s1)
        | Ok (first :: others) => (Ok (Some (summary w target s1 first others)), s1)
        end
    end.
Proof.
  intros Hc. unfold getDailyHigh.
  destruct (CITIES cityCode) eqn:E; [congruence | |];
    rewrite try_rethrow; unfold bind;
    match goal with |- context [getHourlyForecast ?w ?a ?b s] =>
      destruct (getHourlyForecast w a b s) as [[hs | e] s1] end;
    try reflexivity;
    unfold lift;
    destruct (filter_day host (JsDate.isoDate target) hs) as [[| first others] | e];
    reflexivity.
Qed.

(** A key that [CITIES] does not resolve is refused at once. *)
Lemma getDailyHigh_unknown host w cityCode targetDate s :
  CITIES cityCode = Absent ->
  getDailyHigh host w cityCode targetDate s
  = (Throw (Error ("Unknown city: " ++ cityCode)), s).
Proof. intros H. unfold getDailyHigh. rewrite H. reflexivity. Qed.

(** An invalid target date never yields a forecast. *)
Lemma getDailyHigh_invalid host w cityCode s r s' :
  getDailyHigh host w cityCode JsDate.Invalid s = (Ok r, s') -> False.
Proof.
  unfold getDailyHigh.
  destruct (CITIES cityCode); [discriminate | |];
    rewrite try_rethrow; unfold bind;
    match goal with |- context [getHourlyForecast ?w ?a ?b s] =>
      destruct (getHourlyForecast w a b s) as [[hs | e] s1] end;
    cbn; discriminate.
Qed.

(** *** Numbers *)

Lemma Qle_bool_hours (d : Z) :
  Qle_bool 0 (inject_Z d / inject_Z 3600000) = (0 <=? d).
Proof.
  unfold Qle_bool, Qdiv, Qmult, Qinv, inject_Z. cbn. destruct d; reflexivity.
Qed.

(** The lead time that the code computes is [lead_hours]. *)
Lemma Math_max0_lead target t_now :
  Math_max0 (inject_Z (target - t_now) / inject_Z JsDate.msPerHour)
  = lead_hours target t_now.
Proof.
  unfold Math_max0, lead_hours. change JsDate.msPerHour with 3600000.
  rewrite Qle_bool_hours.
  destruct (Z.ltb_spec (target - t_now) 0), (Z.leb_spec 0 (target - t_now));
    try lia; reflexivity.
Qed.

Lemma Math_max_cons x y ys :
  Math_max x (y :: ys) = Math_max (if Qle_bool x y then y else x) ys.
Proof. reflexivity. Qed.

Lemma Math_min_cons x y ys :
  Math_min x (y :: ys) = Math_min (if Qle_bool y x then y else x) ys.
Proof. reflexivity. Qed.

Lemma Qle_bool_false a b : Qle_bool a b = false -> (b <= a)%Q.
Proof.
  intros E. apply Qlt_le_weak, Qnot_le_lt. intros C.
  apply Qle_bool_iff in C. congruence.
Qed.


Lemma Math_max_init x xs : (x <= Math_max x xs)%Q.
Proof.
  revert x. induction xs as [| y ys IH]; intros x; [apply Qle_refl |].
  rewrite Math_max_cons. eapply Qle_trans; [| apply IH].
  destruct (Qle_bool x y) eqn:E; [apply Qle_bool_iff; exact E | apply Qle_refl].
Qed.



Lemma Math_min_init x xs : (Math_min x xs <= x)%Q.
Proof.
  revert x. induction xs as [| y ys IH]; intros x; [apply Qle_refl |].
  rewrite Math_min_cons. eapply Qle_trans; [apply IH |].
  destruct (Qle_bool y x) eqn:E; [apply Qle_bool_iff; exact E | apply Qle_refl].
Qed.


(** *** The periods of the target day *)


(** When every start time is a date, [filter_day] is a plain filter. *)
Lemma filter_day_valid host day hs :
  (forall h, In h hs -> Date_parse host (HourlyForecast.startTime h) <> JsDate.Invalid) ->
  filter_day host day hs = Ok (List.filter (on_day host day) hs).
Proof.
  induction hs as [| h hs IH]; intros V; [reflexivity |].
  cbn [filter_day List.filter]. unfold on_day at 1.
  pose proof (V h (or_introl eq_refl)) as Vh.
  destruct (Date_parse host (HourlyForecast.startTime h)) as [| t]; [congruence |].
  cbn [toISODate]. rewrite IH by (intros h' Hh'; apply V; right; exact Hh').
  reflexivity.
Qed.

(** *** The tiers *)

(** C3: the standard deviation of each confidence tier is 1.5, 2.0, 3.0
    and 4.5 for very_high, high, medium and low, and it grows strictly as
    the confidence decreases. *)
Theorem getStdDev_table :
  getStdDev very_high = 1.5%Q /\ getStdDev high = 2.0%Q
  /\ getStdDev medium = 3.0%Q /\ getStdDev low = 4.5%Q
  /\ (getStdDev very_high < getStdDev high)%Q
  /\ (getStdDev high < getStdDev medium)%Q
  /\ (getStdDev medium < getStdDev low)%Q.
Proof. repeat split; reflexivity. Qed.

Lemma confidence_of_table (x : Q) :
  ((x <= 24)%Q -> confidence_of x = very_high)
  /\ ((24 < x)%Q -> (x <= 48)%Q -> confidence_of x = high)
  /\ ((48 < x)%Q -> (x <= 72)%Q -> confidence_of x = medium)
  /\ ((72 < x)%Q -> confidence_of x = low).
Proof.
  unfold confidence_of.
  assert (F : forall b, (b < x)%Q -> Qle_bool x b = false).
  { intros b Hb. destruct (Qle_bool x b) eqn:E; [| reflexivity].
    apply Qle_bool_iff in E. exfalso. exact (Qlt_not_le _ _ Hb E). }
  assert (T : forall b, (x <= b)%Q -> Qle_bool x b = true).
  { intros b Hb. apply Qle_bool_iff, Hb. }
  repeat split.
  - intros H. rewrite (T _ H). reflexivity.
  - intros H1 H2. rewrite (F _ H1), (T _ H2). reflexivity.
  - intros H1 H2.
    rewrite (F 24%Q), (F _ H1), (T _ H2); [reflexivity |].
    eapply Qlt_trans; [| exact H1]. reflexivity.
  - intros H.
    rewrite (F 24%Q), (F 48%Q), (F _ H); [reflexivity | |];
      (eapply Qlt_trans; [| exact H]); reflexivity.
Qed.

(** C2: whenever [getDailyHigh] returns a forecast, its confidence tier is
    determined by the lead time in hours [max(0, targetDate - now)] alone,
    with inclusive upper bounds: at most 24 h gives very_high, at most 48 h
    high, at most 72 h medium, anything above low; exactly 24 h gives
    very_high and 24 h plus one minute gives high. *)
Theorem confidence_from_lead_time host w cityCode targetDate s f s' :
  getDailyHigh host w cityCode targetDate s = (Ok (Some f), s') ->
  exists target,
    targetDate = JsDate.Time target /\
    let lead := lead_hours target (clock w (calls s')) in
    DailyForecast.confidence f = confidence_of lead
    /\ ((lead <= 24)%Q -> DailyForecast.confidence f = very_high)
    /\ ((24 < lead)%Q -> (lead <= 48)%Q -> DailyForecast.confidence f = high)
    /\ ((48 < lead)%Q -> (lead <= 72)%Q -> DailyForecast.confidence f = medium)
    /\ ((72 < lead)%Q -> DailyForecast.confidence f = low)
    /\ (target - clock w (calls s') = 24 * 3600000 ->
        DailyForecast.confidence f = very_high)
    /\ (target - clock w (calls s') = 24 * 3600000 + 60000 ->
        DailyForecast.confidence f = high).
Proof.
  intros H. destruct targetDate as [| target].
  { exfalso. exact (getDailyHigh_invalid _ _ _ _ _ _ H). }
  exists target. split; [reflexivity |].
  assert (Hc : CITIES cityCode <> Absent).
  { intros E. rewrite (getDailyHigh_unknown _ _ _ _ _ E) in H. discriminate. }
  rewrite (getDailyHigh_run _ _ _ _ _ Hc) in H.
  destruct (getHourlyForecast w _ _ s) as [[hs | e] s1]; [| discriminate].
  destruct (filter_day host (JsDate.isoDate target) hs) as [[| first others] | e];
    try discriminate.
  injection H as <- <-. cbn zeta.
  assert (E : DailyForecast.confidence (summary w target s1 first others)
              = confidence_of (lead_hours target (clock w (calls s1)))).
  { unfold summary. cbn [DailyForecast.confidence]. rewrite Math_max0_lead. reflexivity. }
  rewrite E.
  destruct (confidence_of_table (lead_hours target (clock w (calls s1))))
    as (T1 & T2 & T3 & T4).
  repeat split; auto.
  - intros D. unfold lead_hours. rewrite D. reflexivity.
  - intros D. unfold lead_hours. rewrite D. reflexivity.
Qed.

(** A forecast requested exactly 24 hours ahead. *)
Lemma confidence_from_lead_time_witness :
  exists target,
    JsDate.Time Example.dec25 = JsDate.Time target /\
    let lead := lead_hours target (Example.dec25 - 24 * 3600000) in
    very_high = confidence_of lead
    /\ ((lead <= 24)%Q -> very_high = very_high)
    /\ ((24 < lead)%Q -> (lead <= 48)%Q -> very_high = high)
    /\ ((48 < lead)%Q -> (lead <= 72)%Q -> very_high = medium)
    /\ ((72 < lead)%Q -> very_high = low)
    /\ (target - (Example.dec25 - 24 * 3600000) = 24 * 3600000 -> very_high = very_high)
    /\ (target - (Example.dec25 - 24 * 3600000) = 24 * 3600000 + 60000 ->
        very_high = high).
Proof.
  refine (confidence_from_lead_time (Node.host 0)
            (Example.world (Example.dec25 - 24 * 3600000)) "NYC"
            (JsDate.Time Example.dec25) fresh
            {| DailyForecast.date := "2025-12-25";
               DailyForecast.highTemp := 41;
               DailyForecast.lowTemp := 34;
               DailyForecast.confidence := very_high;
               DailyForecast.hoursUntil := 24;
               DailyForecast.shortForecast := "Sunny" |}
            Example.after_forecast _).
  vm_compute. reflexivity.
Defined.

(** *** Absent results and extremes *)




Lemma Example_periods_valid h :
  In h Example.periods ->
  Date_parse (Node.host 0) (HourlyForecast.startTime h) <> JsDate.Invalid.
Proof.
  intros [<- | [<- | [<- | [<- | []]]]]; vm_compute; discriminate.
Defined.





(** The date of a period is the UTC date of its start, not the date its
    text shows: the sample period that starts at 19:00 on 25 December, New
    York time, is the one period of 2025-12-26 and none of 2025-12-25. *)
Lemma period_date_is_utc :
  getDailyHigh (Node.host 0) (Example.world 0) "NYC" (JsDate.Time Example.dec26) fresh
  = (Ok (Some Example.forecast_dec26), Example.after_forecast)
  /\ on_day (Node.host 0) "2025-12-25"
            (Example.period "2025-12-25T19:00:00-05:00" 36 false "Partly Cloudy") = false
  /\ on_day (Node.host 0) "2025-12-26"
            (Example.period "2025-12-25T19:00:00-05:00" 36 false "Partly Cloudy") = true.
Proof. repeat split; vm_compute; reflexivity. Qed.

(** *** Unknown cities *)

(** [getGridPoint] on a pair of coordinates that is not cached. *)
Lemma getGridPoint_miss w lat lon s :
  gridPointCache s !! (lat ++ "," ++ lon) = None ->
  getGridPoint w lat lon s =
    let url := NWS_API_URL ++ "/points/" ++ lat ++ "," ++ lon in
    let s' := {| gridPointCache := gridPointCache s; calls := calls s ++ [Fetch url] |} in
    match points w (calls s) url with
    | Rejects e => (Throw e, s')
    | NotOk status statusText =>
        (Throw (Error ("NWS API error: " ++ status ++ " " ++ statusText)), s')
    | Body (Throw e) => (Throw e, s')
    | Body (Ok gp) =>
        (Ok gp, {| gridPointCache := <[lat ++ "," ++ lon := gp]> (gridPointCache s);
                   calls := calls s ++ [Fetch url] |})
    end.
Proof.
  intros Hm. unfold getGridPoint, bind at 1, get. rewrite Hm.
  rewrite try_rethrow. unfold bind, fetch.
  destruct (points w (calls s) _) as [e | st tx | [gp | e]]; reflexivity.
Qed.

(** C9: the check for an unknown city misses the names that every object
    inherits.  The key [constructor] is no city of the table, yet a fresh
    client does not refuse it before any external call: it first asks the
    forecast service for the point [undefined,undefined], and when that
    is not found the error is the one of the service, not "Unknown
    city". *)
Theorem getDailyHigh_inherited_key host w targetDate :
  assoc "constructor" CITIES_entries = None
  /\ hd_error (calls (snd (getDailyHigh host w "constructor" targetDate fresh)))
     = Some (Fetch "https://api.weather.gov/points/undefined,undefined")
  /\ getDailyHigh host Example.not_found "constructor" targetDate fresh
     = (Throw (Error "NWS API error: 404 Not Found"),
        {| gridPointCache := ∅;
           calls := [Fetch "https://api.weather.gov/points/undefined,undefined"] |}).
Proof.
  split; [reflexivity |]. split; [| reflexivity].
  unfold getDailyHigh.
  change (CITIES "constructor") with Inherited.
  cbv beta iota. rewrite try_rethrow.
  unfold bind at 1. unfold getHourlyForecast. rewrite try_rethrow.
  unfold bind at 1. rewrite getGridPoint_miss by apply lookup_empty.
  cbn [lat_text lon_text fresh calls gridPointCache app].
  change (NWS_API_URL ++ "/points/" ++ "undefined" ++ "," ++ "undefined")
    with "https://api.weather.gov/points/undefined,undefined".
  cbv zeta.
  destruct (points w [] "https://api.weather.gov/points/undefined,undefined")
    as [e | status tx | [gp | e]]; try reflexivity.
  unfold bind, fetch, lift, throw, ret. cbv beta iota. cbn [calls gridPointCache app].
  match goal with |- context [hourly w ?a ?b] =>
    destruct (hourly w a b) as [e | status tx | [hs | e]] end; try reflexivity.
  destruct targetDate as [| target]; cbn [toISODate]; [reflexivity |].
  destruct (filter_day host (JsDate.isoDate target) hs) as [[| first others] | e];
    reflexivity.
Qed.

End NWSFacts.

(** ** The scanner: parsing *)

Module ParsingFacts.
Import Scanner Spec.

(** [xs.some(f)] is false exactly when [f] is false on every element. *)
Lemma some_false {A} (f : A -> bool) xs :
  Js.some f xs = false <-> forall x, In x xs -> f x = false.
Proof.
  unfold Js.some. split.
  - intros H x Hx. destruct (f x) eqn:E; [| reflexivity].
    assert (existsb f xs = true) by (apply existsb_exists; eauto). congruence.
  - intros H. destruct (existsb f xs) eqn:E; [| reflexivity].
    apply existsb_exists in E. destruct E as [x [Hx Fx]].
    rewrite (H x Hx) in Fx. discriminate.
Qed.

(** [parseWeatherMarket] never reads [description] or [slug]. *)
Lemma parseWeatherMarket_texts host B (parse : string -> option B) t_now d sl m :
  parseWeatherMarket host B parse t_now (with_texts d sl m)
  = parseWeatherMarket host B parse t_now m.
Proof. destruct m. reflexivity. Qed.

(** C4, as the code has it: the first step of [parseWeatherMarket]
    lowercases the question of the record (its title when the question is
    missing or empty) and looks for a keyword of the fixed list in it;
    when none occurs the result is absent.  The description and the slug
    are not consulted: replacing them never changes the result. *)
Theorem keyword_gate host B (parse : string -> option B) t_now m :
  ((forall kw, In kw TEMP_KEYWORDS ->
      Js.includes
        (Js.toLowerCase
           (Js.sor_empty (Js.sor (RawMarket.question m) (RawMarket.title m))))
        (Js.toLowerCase kw) = false) ->
   parseWeatherMarket host B parse t_now m = Ok None)
  /\ (forall description slug,
        parseWeatherMarket host B parse t_now (with_texts description slug m)
        = parseWeatherMarket host B parse t_now m).
Proof.
  split.
  - intros H. unfold parseWeatherMarket.
    assert (E : isTemp m = false).
    { unfold isTemp, question_text. apply some_false. exact H. }
    rewrite E. reflexivity.
  - intros d sl. apply parseWeatherMarket_texts.
Qed.

Lemma described_market_no_keyword kw :
  In kw TEMP_KEYWORDS ->
  Js.includes
    (Js.toLowerCase
       (Js.sor_empty (Js.sor (RawMarket.question Example.described_market)
                             (RawMarket.title Example.described_market))))
    (Js.toLowerCase kw) = false.
Proof.
  intros [<- | [<- | [<- | [<- | [<- | [<- | []]]]]]]; vm_compute; reflexivity.
Defined.

(** The gate on a record whose question names no keyword. *)
Lemma keyword_gate_witness :
  parseWeatherMarket (Node.host 0) string Example.any_bucket 0 Example.described_market
  = Ok None.
Proof.
  exact (proj1 (keyword_gate (Node.host 0) string Example.any_bucket 0
                  Example.described_market)
               described_market_no_keyword).
Defined.

(** C4, as stated, fails: a record whose description and slug contain the
    keyword "temperature" while its question contains none is not
    recognized, although the same record with the keyword in the question
    is. *)
Lemma description_keyword_not_recognized :
  Js.includes (Js.toLowerCase "Resolves to the high temperature recorded in Central Park.")
              "temperature" = true
  /\ RawMarket.description Example.described_market
     = Some "Resolves to the high temperature recorded in Central Park."
  /\ Js.includes (Js.toLowerCase "nyc-high-temperature-dec-25") "temperature" = true
  /\ RawMarket.slug Example.described_market = Some "nyc-high-temperature-dec-25"
  /\ parseWeatherMarket (Node.host 0) string Example.any_bucket 0
       Example.described_market = Ok None
  /\ parseWeatherMarket (Node.host 0) string Example.any_bucket 0
       Example.asked_market <> Ok None.
Proof. repeat split; try (vm_compute; reflexivity). vm_compute. discriminate. Qed.

(** *** Target dates *)

(** Whatever the host, the date read off "dec 25" owes nothing to the
    time of the scan: the matched text alone goes to the date parser. *)
Lemma extractTargetDate_dec_25 host t_now :
  extractTargetDate host t_now (Js.toLowerCase "NYC High Temp Dec 25")
                    Example.dec25_market
  = match Date_parse host "dec 25" with
    | JsDate.Time t => Ok (JsDate.isoDate t)
    | JsDate.Invalid => Ok (JsDate.isoDate (setDate_next host t_now))
    end.
Proof.
  unfold extractTargetDate.
  change (Js.sor (RawMarket.endDate Example.dec25_market) None) with (@None string).
  change (Js.toLowerCase "NYC High Temp Dec 25") with "nyc high temp dec 25".
  assert (E : first_date host "nyc high temp dec 25" datePatterns
              = match Date_parse host "dec 25" with
                | JsDate.Time t => Some (JsDate.isoDate t)
                | JsDate.Invalid => None
                end).
  { cbv - [Date_parse JsDate.isoDate]. reflexivity. }
  rewrite E.
  destruct (Date_parse host "dec 25"); reflexivity.
Qed.

(** C7: the date read off "Dec 25" is in the year 2001.  The record with
    question "NYC High Temp Dec 25" and no end date does not get as far as
    the date: "temp" is no keyword, and [parseWeatherMarket] returns absent
    for it; handed to [extractTargetDate] all the same, it yields
    2001-12-25.  The record that spells out "temperature" does reach the
    date extraction: it has no end date, only the short-month pattern
    matches, its match "dec 25" carries no year, and Node reads it as 25
    December 2001.  So [parseWeatherMarket] gives the market the target
    date 2001-12-25, and [findTemperatureMarkets] returns it so, at any
    time of the scan. *)
Theorem dec_25_is_read_as_2001 t_now :
  isTemp Example.dec25_market = false
  /\ parseWeatherMarket (Node.host 0) string Example.any_bucket t_now Example.dec25_market
     = Ok None
  /\ extractTargetDate (Node.host 0) t_now (question_text Example.dec25_market)
                       Example.dec25_market
     = Ok "2001-12-25"
  /\ RawMarket.endDate Example.spelled_market = None
  /\ map (fun p => Regex.match0 (fst p) (snd p) (question_text Example.spelled_market))
         datePatterns
     = [None; None; None; Some "dec 25"]
  /\ parseWeatherMarket (Node.host 0) string Example.any_bucket t_now Example.spelled_market
     = Ok (Some Example.spelled_parsed)
  /\ WeatherMarket.targetDate Example.spelled_parsed = "2001-12-25"
  /\ findTemperatureMarkets (Node.host 0) (Example.christmas_listing t_now) string
                            Example.any_bucket fresh
     = (Ok [Example.spelled_parsed], after_primary fresh).
Proof.
  split; [vm_compute; reflexivity |]. split; [vm_compute; reflexivity |].
  split; [apply extractTargetDate_dec_25 |].
  split; [reflexivity |]. split; [vm_compute; reflexivity |].
  split; [vm_compute; reflexivity |]. split; [reflexivity |].
  vm_compute. reflexivity.
Qed.

(** East of Greenwich the local midnight of that day is still the day
    before in UTC: one hour ahead, the target date is 2001-12-24. *)
Lemma extractTargetDate_east_of_utc t_now :
  extractTargetDate (Node.host 3600000) t_now (Js.toLowerCase "NYC High Temp Dec 25")
                    Example.dec25_market
  = Ok "2001-12-24".
Proof. rewrite extractTargetDate_dec_25. reflexivity. Qed.

(** *** Default prices *)

Lemma parseOutcomes_member B (parse : string -> option B) m l o b :
  Js.aor (RawMarket.outcomes m) (RawMarket.tokens m) = Some l ->
  In o l ->
  parse (label o) = Some b ->
  In {| MarketOutcome.tokenId := token o;
        MarketOutcome.bucket := b;
        MarketOutcome.price :=
          Js.parseFloat (Js.or (Js.or (RawOutcome.price o) (RawOutcome.lastTradePrice o))
                               (Js.Str "0.5")) |}
     (parseOutcomes B parse m).
Proof.
  intros Hl Ho Hb. unfold parseOutcomes. rewrite Hl.
  apply in_flat_map. exists o. split; [exact Ho |].
  fold (label o). rewrite Hb. left. reflexivity.
Qed.

End ParsingFacts.

(** ** The scanner: refreshing prices *)

Module RefreshFacts.
Import Scanner Spec.

Section Refresh.
Variable w : World.
Variable B : Type.

Lemma update_outcome_run (o : MarketOutcome.t B) s :
  update_outcome w B o s
  = (Ok {| MarketOutcome.tokenId := MarketOutcome.tokenId o;
           MarketOutcome.bucket := MarketOutcome.bucket o;
           MarketOutcome.price :=
             refreshed_price (getPrice w (calls s) (MarketOutcome.tokenId o))
                             (MarketOutcome.price o) |},
     {| gridPointCache := gridPointCache s; calls := calls s ++ [price_call o] |}).
Proof.
  unfold update_outcome, try_catch, bind, get_price, ret, refreshed_price.
  destruct (getPrice w (calls s) (MarketOutcome.tokenId o)) as [p | e];
    [reflexivity | destruct o; reflexivity].
Qed.

Lemma update_outcomes_run (os : list (MarketOutcome.t B)) s :
  update_outcomes w B os s
  = (Ok (refreshed w (calls s) os),
     {| gridPointCache := gridPointCache s; calls := calls s ++ map price_call os |}).
Proof.
  revert s. induction os as [| o r IH]; intros s.
  - cbn. rewrite app_nil_r. destruct s; reflexivity.
  - cbn [update_outcomes]. unfold bind at 1. rewrite update_outcome_run.
    unfold bind at 1. rewrite IH. cbn [calls gridPointCache refreshed map ret].
    unfold ret. rewrite <- app_assoc. reflexivity.
Qed.

Lemma refreshed_length log (os : list (MarketOutcome.t B)) :
  length (refreshed w log os) = length os.
Proof.
  revert log. induction os as [| o r IH]; intros log; [reflexivity |].
  cbn. rewrite IH. reflexivity.
Qed.

(** The outcome at position [i] after the refresh depends on the answer
    to its own price request only. *)
Lemma refreshed_lookup log (os : list (MarketOutcome.t B)) i o :
  os !! i = Some o ->
  refreshed w log os !! i
  = Some {| MarketOutcome.tokenId := MarketOutcome.tokenId o;
            MarketOutcome.bucket := MarketOutcome.bucket o;
            MarketOutcome.price :=
              refreshed_price
                (getPrice w (log ++ map price_call (take i os))
                          (MarketOutcome.tokenId o))
                (MarketOutcome.price o) |}.
Proof.
  revert log i. induction os as [| o' r IH]; intros log i H; [discriminate |].
  destruct i as [| i].
  - cbn in H. injection H as ->. cbn. rewrite app_nil_r. reflexivity.
  - cbn in H. cbn [refreshed]. cbn [lookup list_lookup].
    rewrite (IH _ _ H). cbn [take map]. rewrite <- app_assoc. reflexivity.
Qed.


(** C8: [updateMarketPrices] never fails.  It returns the market with
    the same outcomes in the same order; an outcome whose price request
    throws keeps its previous price, and every other outcome is still
    refreshed from the answer to its own request, whatever happened to
    the requests before it. *)
Theorem updateMarketPrices_tolerates_failures (market : WeatherMarket.t B) s :
  exists market',
    updateMarketPrices w B market s
    = (Ok market',
       {| gridPointCache := gridPointCache s;
          calls := calls s ++ map price_call (WeatherMarket.outcomes market) |})
    /\ WeatherMarket.marketId market' = WeatherMarket.marketId market
    /\ WeatherMarket.cityCode market' = WeatherMarket.cityCode market
    /\ WeatherMarket.targetDate market' = WeatherMarket.targetDate market
    /\ length (WeatherMarket.outcomes market') = length (WeatherMarket.outcomes market)
    /\ forall i o,
         WeatherMarket.outcomes market !! i = Some o ->
         exists o',
           WeatherMarket.outcomes market' !! i = Some o'
           /\ MarketOutcome.tokenId o' = MarketOutcome.tokenId o
           /\ MarketOutcome.bucket o' = MarketOutcome.bucket o
           /\ let answer :=
                getPrice w (calls s ++ map price_call
                                         (take i (WeatherMarket.outcomes market)))
                         (MarketOutcome.tokenId o) in
              (forall e, answer = Throw e ->
                         MarketOutcome.price o' = MarketOutcome.price o)
              /\ (forall p, answer = Ok p ->
                            MarketOutcome.price o'
                            = if Js.gt0 p then p else MarketOutcome.price o).
Proof.
  unfold updateMarketPrices, bind. rewrite update_outcomes_run. unfold ret.
  eexists. split; [reflexivity |].
  cbn [WeatherMarket.marketId WeatherMarket.cityCode WeatherMarket.targetDate
       WeatherMarket.outcomes].
  repeat split; try reflexivity.
  - apply refreshed_length.
  - intros i o Hi. eexists. split; [apply refreshed_lookup, Hi |].
    cbn [MarketOutcome.tokenId MarketOutcome.bucket MarketOutcome.price].
    repeat split; try reflexivity.
    + intros e ->. reflexivity.
    + intros p ->. reflexivity.
Qed.

End Refresh.

(** C10: a raw outcome whose label parses to a bucket and which has
    neither a [price] nor a [lastTradePrice] is kept by [parseOutcomes]
    with the price 0.5 (the rational 1/2); and during a refresh a fetched price of exactly
    zero is discarded, the outcome keeping its previous price. *)
Theorem default_price_and_zero_price :
  (forall B (parse : string -> option B) m l o b,
      Js.aor (RawMarket.outcomes m) (RawMarket.tokens m) = Some l ->
      In o l ->
      parse (label o) = Some b ->
      RawOutcome.price o = Js.Undefined ->
      RawOutcome.lastTradePrice o = Js.Undefined ->
      In {| MarketOutcome.tokenId := token o;
            MarketOutcome.bucket := b;
            MarketOutcome.price := Js.Fin (1 # 2) |}
         (parseOutcomes B parse m))
  /\ (forall w B (market : WeatherMarket.t B) s i o,
        WeatherMarket.outcomes market !! i = Some o ->
        getPrice w (calls s ++ map price_call (take i (WeatherMarket.outcomes market)))
                 (MarketOutcome.tokenId o) = Ok (Js.Fin 0) ->
        exists market' s',
          updateMarketPrices w B market s = (Ok market', s')
          /\ WeatherMarket.outcomes market' !! i = Some o).
Proof.
  split.
  - intros B parse m l o b Hl Ho Hb Hp Hlp.
    pose proof (ParsingFacts.parseOutcomes_member B parse m l o b Hl Ho Hb) as H.
    rewrite Hp, Hlp in H. exact H.
  - intros w B market s i o Hi Hz.
    unfold updateMarketPrices, bind. rewrite update_outcomes_run. unfold ret.
    eexists. eexists. split; [reflexivity |].
    cbn [WeatherMarket.outcomes]. rewrite (refreshed_lookup w B _ _ _ _ Hi).
    rewrite Hz. destruct o; reflexivity.
Qed.

(** On the sample market the first price request times out: the first
    outcome keeps 0.3, and the third is still refreshed to 0.25. *)
Lemma updateMarketPrices_tolerates_failures_witness :
  exists market' first third,
    fst (updateMarketPrices Example.trading string Example.market fresh) = Ok market'
    /\ WeatherMarket.outcomes market' !! 0%nat = Some first
    /\ MarketOutcome.price first = Js.Fin 0.3
    /\ WeatherMarket.outcomes market' !! 2%nat = Some third
    /\ MarketOutcome.price third = Js.Fin 0.25.
Proof.
  destruct (updateMarketPrices_tolerates_failures Example.trading string
              Example.market fresh)
    as (market' & Hrun & _ & _ & _ & _ & Hall).
  destruct (Hall 0%nat _ eq_refl) as (first & H0 & _ & _ & Hthrow & _).
  destruct (Hall 2%nat _ eq_refl) as (third & H2 & _ & _ & _ & Hok).
  exists market', first, third.
  split; [rewrite Hrun; reflexivity |].
  split; [exact H0 |].
  split; [exact (Hthrow (HostError "timeout") eq_refl) |].
  split; [exact H2 |].
  exact (Hok (Js.Fin 0.25) eq_refl).
Defined.

(** The second outcome of the scenario record has no price field, and the
    second token of the sample market is quoted at zero. *)
Lemma default_price_and_zero_price_witness :
  In {| MarketOutcome.tokenId := Some "tok-b";
        MarketOutcome.bucket := "45°F or above";
        MarketOutcome.price := Js.Fin (1 # 2) |}
     (parseOutcomes string Example.any_bucket Example.dec25_market)
  /\ exists market' s',
       updateMarketPrices Example.trading string Example.market fresh = (Ok market', s')
       /\ WeatherMarket.outcomes market' !! 1%nat
          = Some {| MarketOutcome.tokenId := Some "tok-b";
                    MarketOutcome.bucket := "45°F or above";
                    MarketOutcome.price := Js.Fin 0.5 |}.
Proof.
  split.
  - exact (proj1 default_price_and_zero_price string Example.any_bucket
             Example.dec25_market _
             (Example.outcome "45°F or above" "tok-b" Js.Undefined)
             "45°F or above" eq_refl (or_intror (or_introl eq_refl))
             eq_refl eq_refl eq_refl).
  - exact (proj2 default_price_and_zero_price Example.trading string Example.market
             fresh 1%nat _ eq_refl eq_refl).
Defined.

End RefreshFacts.

(** ** The scanner: the scan as a whole *)

Module ScanFacts.
Import Scanner Spec.




Lemma total_rethrow {A} (m : M A) :
  total m -> total (try_catch m (fun error => throw error)).
Proof.
  intros Hm s. rewrite try_rethrow. apply Hm.
Qed.

Section Scan.
Variable host : Host.
Variable w : World.
Variable B : Type.
Variable parse : string -> option B.
Variable WO : Type.
Variable edge : WO -> Q.
Variable detect : WeatherMarket.t B -> DailyForecast.t -> list WO.











End Scan.



End ScanFacts.

(** ** The edge detector *)

Module DetectorFacts.
Import EdgeDetector.

Section Detector.
Variable MIN_EDGE_THRESHOLD : Q.
Variable Phi : Q -> Q.

(** C1: for a bucket of a normalized market with a finite price, the
    detector emits the opportunity of that bucket if and only if its
    edge, the fair probability minus the market price, is at least
    [MIN_EDGE_THRESHOLD]; the bound is inclusive, so an edge equal to
    the threshold is emitted. *)
Theorem detectOpportunities_threshold market forecast outcome p :
  In outcome (WeatherMarket.outcomes market) ->
  MarketOutcome.price outcome = Js.Fin p ->
  let opp := opportunity Phi market forecast outcome p in
  edge opp = (fair Phi forecast (MarketOutcome.bucket outcome) - p)%Q
  /\ (In opp (detectOpportunities MIN_EDGE_THRESHOLD Phi market forecast)
      <-> (MIN_EDGE_THRESHOLD <= edge opp)%Q)
  /\ ((edge opp == MIN_EDGE_THRESHOLD)%Q ->
      In opp (detectOpportunities MIN_EDGE_THRESHOLD Phi market forecast)).
Proof.
  intros Hin Hp opp.
  assert (Hemit : (MIN_EDGE_THRESHOLD <= edge opp)%Q ->
                  In opp (detectOpportunities MIN_EDGE_THRESHOLD Phi market forecast)).
  { intros Hle. unfold detectOpportunities. apply in_flat_map.
    exists outcome. split; [exact Hin |]. rewrite Hp. fold opp.
    apply Qle_bool_iff in Hle. rewrite Hle. left. reflexivity. }
  split; [reflexivity |]. split; [split |].
  - unfold detectOpportunities. intros H. apply in_flat_map in H.
    destruct H as (o' & _ & Ho').
    destruct (MarketOutcome.price o') as [| | | p']; try contradiction.
    destruct (Qle_bool MIN_EDGE_THRESHOLD
                (edge (opportunity Phi market forecast o' p'))) eqn:E;
      [| contradiction].
    destruct Ho' as [Ho' | []]. rewrite <- Ho'. apply Qle_bool_iff, E.
  - exact Hemit.
  - intros Heq. apply Hemit. rewrite Heq. apply Qle_refl.
Qed.

End Detector.

(** The first bucket of the sample market sits exactly at the threshold
    0.05 and is emitted. *)
Lemma detectOpportunities_threshold_witness :
  In (opportunity Example.Phi Example.bucket_market Example.forecast
                  Example.bucket_73_77 0.6326)
     (detectOpportunities 0.05 Example.Phi Example.bucket_market Example.forecast).
Proof.
  refine (proj2 (proj2 (detectOpportunities_threshold 0.05 Example.Phi
                          Example.bucket_market Example.forecast
                          Example.bucket_73_77 0.6326 _ _)) _).
  - left. reflexivity.
  - reflexivity.
  - vm_compute. reflexivity.
Defined.

End DetectorFacts.

(** * Further properties of the code *)

(** ** Substrings *)

Module StringFacts.

Lemma append_cons x (a b : string) : String x a ++ b = String x (a ++ b).
Proof. reflexivity. Qed.

Lemma append_nil (b : string) : "" ++ b = b.
Proof. reflexivity. Qed.

Lemma append_assoc (a b c : string) : (a ++ b) ++ c = a ++ (b ++ c).
Proof.
  induction a as [| x a IH]; [reflexivity |].
  rewrite !append_cons, IH. reflexivity.
Qed.

Lemma prefix_app p s : String.prefix p s = true <-> exists b, s = p ++ b.
Proof.
  revert s. induction p as [| c p IH]; intros s.
  - destruct s; cbn; (split; [intros _; eexists; reflexivity | reflexivity]).
  - destruct s as [| d s]; cbn [String.prefix];
      [split; [discriminate | intros [b Hb]; discriminate] |].
    destruct (Ascii.ascii_dec c d) as [-> | Hn].
    + rewrite IH. split; intros [b Hb]; exists b;
        [rewrite Hb; reflexivity | rewrite append_cons in Hb; injection Hb; auto].
    + split; [discriminate |].
      intros [b Hb]. rewrite append_cons in Hb. injection Hb. intros; congruence.
Qed.

Lemma includes_unfold s p :
  Js.includes s p
  = if String.prefix p s then true
    else match s with EmptyString => false | String _ r => Js.includes r p end.
Proof. destruct s; reflexivity. Qed.

(** [s.includes(p)] holds exactly when [p] occurs in [s]. *)
Lemma includes_spec s p : Js.includes s p = true <-> exists a b, s = a ++ p ++ b.
Proof.
  induction s as [| c s IH]; rewrite includes_unfold.
  - destruct (String.prefix p "") eqn:E.
    + split; [intros _ | reflexivity]. apply prefix_app in E. destruct E as [b Hb].
      exists "", b. exact Hb.
    + split; [discriminate |]. intros (a & b & H).
      destruct a; [| discriminate]. rewrite append_nil in H.
      assert (String.prefix p "" = true) by (apply prefix_app; exists b; exact H).
      congruence.
  - destruct (String.prefix p (String c s)) eqn:E.
    + split; [intros _ | reflexivity]. apply prefix_app in E. destruct E as [b Hb].
      exists "", b. exact Hb.
    + rewrite IH. split.
      * intros (a & b & H). exists (String c a), b. rewrite H. reflexivity.
      * intros (a & b & H). destruct a as [| x a].
        -- rewrite append_nil in H.
           assert (String.prefix p (String c s) = true)
             by (apply prefix_app; exists b; exact H).
           congruence.
        -- rewrite append_cons in H. injection H as _ H. exists a, b. exact H.
Qed.

Lemma includes_trans s p r :
  Js.includes s p = true -> Js.includes p r = true -> Js.includes s r = true.
Proof.
  rewrite !includes_spec. intros (a & b & ->) (c & d & ->).
  exists (a ++ c), (d ++ b). rewrite !append_assoc. reflexivity.
Qed.

Lemma includes_app_l s t p : Js.includes s p = true -> Js.includes (s ++ t) p = true.
Proof.
  rewrite !includes_spec. intros (a & b & ->). exists a, (b ++ t).
  rewrite !append_assoc. reflexivity.
Qed.

Lemma includes_app_r s t p : Js.includes t p = true -> Js.includes (s ++ t) p = true.
Proof.
  rewrite !includes_spec. intros (a & b & ->). exists (s ++ a), b.
  rewrite !append_assoc. reflexivity.
Qed.

Lemma toLowerCase_app a b :
  Js.toLowerCase (a ++ b) = Js.toLowerCase a ++ Js.toLowerCase b.
Proof.
  induction a as [| x a IH]; [reflexivity |].
  rewrite append_cons. cbn [Js.toLowerCase]. rewrite IH, append_cons. reflexivity.
Qed.

End StringFacts.

(** ** The forecast client: cache, shape of a forecast, failures *)

Module ForecastFacts.
Import NWS Spec NWSFacts.

Lemma getGridPoint_hit w lat lon s gp :
  gridPointCache s !! (lat ++ "," ++ lon) = Some gp ->
  getGridPoint w lat lon s = (Ok gp, s).
Proof.
  intros H. unfold getGridPoint, bind, get. rewrite H. reflexivity.
Qed.


(** X2: a failed [getGridPoint] costs exactly one request and leaves the
    cache as it was, without an entry for the pair: a failure is never
    cached. *)
Theorem getGridPoint_failure_not_cached w lat lon s e s' :
  getGridPoint w lat lon s = (Throw e, s') ->
  gridPointCache s' = gridPointCache s
  /\ gridPointCache s' !! (lat ++ "," ++ lon) = None
  /\ calls s' = (calls s ++ [Fetch (NWS_API_URL ++ "/points/" ++ lat ++ "," ++ lon)])%list.
Proof.
  intros H.
  destruct (gridPointCache s !! (lat ++ "," ++ lon)) as [gp0 |] eqn:E.
  - rewrite (getGridPoint_hit _ _ _ _ _ E) in H. discriminate.
  - rewrite (getGridPoint_miss _ _ _ _ E) in H. cbv zeta in H.
    destruct (points w (calls s) _) as [e1 | st tx | [gp1 | e1]]; try discriminate;
      injection H as <- <-; cbn [gridPointCache calls]; auto.
Qed.

(** What a returned forecast is made of. *)
Lemma getDailyHigh_some host w cityCode targetDate s f s' :
  getDailyHigh host w cityCode targetDate s = (Ok (Some f), s') ->
  exists target hs first others,
    targetDate = JsDate.Time target
    /\ getHourlyForecast w (lat_text (CITIES cityCode)) (lon_text (CITIES cityCode)) s
       = (Ok hs, s')
    /\ filter_day host (JsDate.isoDate target) hs = Ok (first :: others)
    /\ f = summary w target s' first others.
Proof.
  intros H. destruct targetDate as [| target].
  { exfalso. exact (getDailyHigh_invalid _ _ _ _ _ _ H). }
  assert (Hc : CITIES cityCode <> Absent).
  { intros E. rewrite (getDailyHigh_unknown _ _ _ _ _ E) in H. discriminate. }
  rewrite (getDailyHigh_run _ _ _ _ _ Hc) in H.
  destruct (getHourlyForecast w _ _ s) as [[hs | e] s1]; [| discriminate].
  destruct (filter_day host (JsDate.isoDate target) hs) as [[| first others] | e] eqn:F;
    try discriminate.
  injection H as <- <-. exists target, hs, first, others. auto.
Qed.

Lemma Math_max0_nonneg x : (0 <= Math_max0 x)%Q.
Proof.
  unfold Math_max0. destruct (Qle_bool 0 x) eqn:E; [apply Qle_bool_iff, E | apply Qle_refl].
Qed.

Lemma Math_round_nonneg x : (0 <= x)%Q -> 0 <= Math_round x.
Proof.
  intros H. unfold Math_round.
  change 0 with (Qfloor 0). apply Qfloor_resp_le.
  apply Qle_trans with x; [exact H |].
  rewrite <- (Qplus_0_r x) at 1. apply Qplus_le_r. discriminate.
Qed.

(** X3: every forecast that [getDailyHigh] returns is for a valid target
    date, carries the ISO date of that target, has [lowTemp <= highTemp] and
    a non-negative [hoursUntil]. *)
Theorem forecast_well_formed host w cityCode targetDate s f s' :
  getDailyHigh host w cityCode targetDate s = (Ok (Some f), s') ->
  exists target,
    targetDate = JsDate.Time target
    /\ DailyForecast.date f = JsDate.isoDate target
    /\ (DailyForecast.lowTemp f <= DailyForecast.highTemp f)%Q
    /\ 0 <= DailyForecast.hoursUntil f.
Proof.
  intros H. destruct (getDailyHigh_some _ _ _ _ _ _ _ H)
    as (target & hs & first & others & -> & _ & _ & ->).
  exists target. split; [reflexivity |]. unfold summary. cbn.
  split; [reflexivity |]. split.
  - eapply Qle_trans; [apply Math_min_init | apply Math_max_init].
  - apply Math_round_nonneg, Math_max0_nonneg.
Qed.

(** X4: for a target date that is not after the clock, the lead time is
    clamped to zero: the forecast has confidence very_high and [hoursUntil]
    0. *)
Theorem past_date_is_very_high host w cityCode target s f s' :
  getDailyHigh host w cityCode (JsDate.Time target) s = (Ok (Some f), s') ->
  target <= clock w (calls s') ->
  DailyForecast.confidence f = very_high /\ DailyForecast.hoursUntil f = 0.
Proof.
  intros H Hpast. destruct (getDailyHigh_some _ _ _ _ _ _ _ H)
    as (target' & hs & first & others & E & _ & _ & ->).
  injection E as <-. unfold summary. cbn [DailyForecast.confidence DailyForecast.hoursUntil].
  rewrite Math_max0_lead. unfold lead_hours.
  destruct (Z.ltb_spec (target - clock w (calls s')) 0) as [Hlt | Hge].
  - split; reflexivity.
  - replace (target - clock w (calls s')) with 0 by lia. split; reflexivity.
Qed.

Lemma hd_filter_find {A} (P : A -> bool) l :
  match List.filter P l with x :: _ => Some x | [] => None end = List.find P l.
Proof.
  induction l as [| a l IH]; [reflexivity |].
  cbn. destruct (P a); [reflexivity | exact IH].
Qed.

Lemma filter_filter_and {A} (P Q : A -> bool) l :
  List.filter Q (List.filter P l) = List.filter (fun x => P x && Q x) l.
Proof.
  induction l as [| a l IH]; [reflexivity |].
  cbn. destruct (P a); cbn; [destruct (Q a); rewrite IH; reflexivity | exact IH].
Qed.

(** X5: the summary of a forecast is that of the first daytime period of
    the target day in the order of the service, and when the day has no
    daytime period, that of its first period. *)
Theorem shortForecast_prefers_daytime host w cityCode target s hs f s' :
  getDailyHigh host w cityCode (JsDate.Time target) s = (Ok (Some f), s') ->
  getHourlyForecast w (lat_text (CITIES cityCode)) (lon_text (CITIES cityCode)) s
  = (Ok hs, s') ->
  (forall h, In h hs -> Date_parse host (HourlyForecast.startTime h) <> JsDate.Invalid) ->
  let day := JsDate.isoDate target in
  match List.find (fun h => on_day host day h && HourlyForecast.isDaytime h) hs with
  | Some d => DailyForecast.shortForecast f = HourlyForecast.shortForecast d
  | None =>
      exists h, List.find (on_day host day) hs = Some h
                /\ DailyForecast.shortForecast f = HourlyForecast.shortForecast h
  end.
Proof.
  intros H Hf Hv day.
  destruct (getDailyHigh_some _ _ _ _ _ _ _ H)
    as (target' & hs' & first & others & E & Hf' & Hfd & ->).
  injection E as <-. rewrite Hf in Hf'. injection Hf' as <-.
  rewrite (filter_day_valid _ _ _ Hv) in Hfd. injection Hfd as Hfd. fold day in Hfd.
  unfold summary. cbn [DailyForecast.shortForecast].
  rewrite <- Hfd, filter_filter_and.
  rewrite <- (hd_filter_find (fun h => on_day host day h && HourlyForecast.isDaytime h) hs).
  destruct (List.filter (fun x => on_day host day x && HourlyForecast.isDaytime x) hs);
    [| reflexivity].
  exists first. split; [| reflexivity].
  rewrite <- hd_filter_find, Hfd. reflexivity.
Qed.

Lemma getHourlyForecast_hit w lat lon s gp :
  gridPointCache s !! (lat ++ "," ++ lon) = Some gp ->
  getHourlyForecast w lat lon s
  = let s' := {| gridPointCache := gridPointCache s;
                 calls := calls s ++ [Fetch (GridPoint.forecastHourlyUrl gp)] |} in
    match hourly w (calls s) (GridPoint.forecastHourlyUrl gp) with
    | Rejects e => (Throw e, s')
    | NotOk status _ => (Throw (Error ("NWS forecast error: " ++ status)), s')
    | Body payload => (payload, s')
    end.
Proof.
  intros Hg. unfold getHourlyForecast. rewrite try_rethrow.
  unfold bind at 1. rewrite (getGridPoint_hit _ _ _ _ _ Hg).
  unfold bind, fetch.
  destruct (hourly w (calls s) (GridPoint.forecastHourlyUrl gp)) as [e | st tx | [hs | e]];
    reflexivity.
Qed.

(** X6: for a city whose grid point is cached, [getDailyHigh] issues exactly
    one request, to the hourly URL of the cached grid point, whether it
    returns or throws, and leaves the cache alone. *)
Theorem cached_city_costs_one_request host w cityCode c gp targetDate s :
  CITIES cityCode = Own c ->
  gridPointCache s !! (lat c ++ "," ++ lon c) = Some gp ->
  snd (getDailyHigh host w cityCode targetDate s)
  = {| gridPointCache := gridPointCache s;
       calls := calls s ++ [Fetch (GridPoint.forecastHourlyUrl gp)] |}.
Proof.
  intros Hc Hg. unfold getDailyHigh. rewrite Hc. rewrite try_rethrow.
  unfold bind at 1. cbn [lat_text lon_text]. rewrite (getHourlyForecast_hit _ _ _ _ _ Hg).
  cbv zeta.
  destruct (hourly w (calls s) (GridPoint.forecastHourlyUrl gp)) as [e | st tx | [hs | e]];
    try reflexivity.
  destruct targetDate as [| target]; [reflexivity |].
  unfold bind, lift.
  destruct (filter_day host (JsDate.isoDate target) hs) as [[| first others] | e];
    reflexivity.
Qed.

Lemma filter_day_invalid host day hs h :
  In h hs -> Date_parse host (HourlyForecast.startTime h) = JsDate.Invalid ->
  filter_day host day hs = Throw (RangeError "Invalid time value").
Proof.
  induction hs as [| a hs IH]; intros Hin Hbad; [destruct Hin |].
  cbn [filter_day].
  destruct (Date_parse host (HourlyForecast.startTime a)) as [| t] eqn:E; [reflexivity |].
  cbn [toISODate]. destruct Hin as [-> | Hin]; [congruence |].
  rewrite (IH Hin Hbad). reflexivity.
Qed.

(** X7: a single hourly period whose start time is no date makes
    [getDailyHigh] throw a RangeError, whatever the other periods are. *)
Theorem unreadable_start_time_throws host w cityCode c target s hs s1 h :
  CITIES cityCode = Own c ->
  getHourlyForecast w (lat c) (lon c) s = (Ok hs, s1) ->
  In h hs ->
  Date_parse host (HourlyForecast.startTime h) = JsDate.Invalid ->
  getDailyHigh host w cityCode (JsDate.Time target) s
  = (Throw (RangeError "Invalid time value"), s1).
Proof.
  intros Hc Hf Hin Hbad.
  rewrite getDailyHigh_run by (rewrite Hc; discriminate).
  rewrite Hc. cbn [lat_text lon_text]. rewrite Hf.
  rewrite (filter_day_invalid _ _ _ _ Hin Hbad). reflexivity.
Qed.

Lemma CITIES_entries_own k c : In (k, c) CITIES_entries -> CITIES k = Own c.
Proof.
  intros [E | [E | [E | [E | [E | [E | []]]]]]]; injection E as <- <-; reflexivity.
Qed.



(** *** Runs on the sample data *)


Lemma getGridPoint_failure_not_cached_witness :
  (∅ : gmap string GridPoint.t) = gridPointCache fresh
  /\ (∅ : gmap string GridPoint.t) !! ("40.7128" ++ "," ++ "-74.006") = None
  /\ [Fetch "https://api.weather.gov/points/40.7128,-74.006"]
     = (calls fresh
        ++ [Fetch (NWS_API_URL ++ "/points/" ++ "40.7128" ++ "," ++ "-74.006")])%list.
Proof.
  refine (getGridPoint_failure_not_cached Example.not_found "40.7128" "-74.006" fresh
            (Error "NWS API error: 404 Not Found")
            {| gridPointCache := ∅;
               calls := [Fetch "https://api.weather.gov/points/40.7128,-74.006"] |} _).
  vm_compute. reflexivity.
Defined.

Lemma Example_forecast_ahead :
  getDailyHigh (Node.host 0) (Example.world (Example.dec25 - 24 * 3600000)) "NYC"
               (JsDate.Time Example.dec25) fresh
  = (Ok (Some Example.forecast_ahead), Example.after_forecast).
Proof. vm_compute. reflexivity. Defined.

Lemma Example_forecast_late :
  getDailyHigh (Node.host 0) (Example.world (Example.dec25 + 3600000)) "NYC"
               (JsDate.Time Example.dec25) fresh
  = (Ok (Some Example.forecast_late), Example.after_forecast).
Proof. vm_compute. reflexivity. Defined.

Lemma Example_hourly t_now :
  getHourlyForecast (Example.world t_now) "40.7128" "-74.006" fresh
  = (Ok Example.periods, Example.after_forecast).
Proof. vm_compute. reflexivity. Defined.

Lemma forecast_well_formed_witness :
  exists target,
    JsDate.Time Example.dec25 = JsDate.Time target
    /\ DailyForecast.date Example.forecast_ahead = JsDate.isoDate target
    /\ (DailyForecast.lowTemp Example.forecast_ahead
        <= DailyForecast.highTemp Example.forecast_ahead)%Q
    /\ 0 <= DailyForecast.hoursUntil Example.forecast_ahead.
Proof.
  exact (forecast_well_formed _ _ _ _ _ _ _ Example_forecast_ahead).
Defined.

Lemma past_date_is_very_high_witness :
  DailyForecast.confidence Example.forecast_late = very_high
  /\ DailyForecast.hoursUntil Example.forecast_late = 0.
Proof.
  refine (past_date_is_very_high _ _ _ _ _ _ _ Example_forecast_late _).
  vm_compute. discriminate.
Defined.

Lemma shortForecast_prefers_daytime_witness :
  DailyForecast.shortForecast Example.forecast_ahead = "Sunny".
Proof.
  pose proof (shortForecast_prefers_daytime _ _ _ _ _ _ _ _
                Example_forecast_ahead (Example_hourly _)
                NWSFacts.Example_periods_valid) as H.
  vm_compute in H. exact H.
Defined.

Lemma cached_city_costs_one_request_witness :
  snd (getDailyHigh (Node.host 0) Example.not_found "NYC" (JsDate.Time Example.dec25)
                    Example.after_forecast)
  = {| gridPointCache := gridPointCache Example.after_forecast;
       calls := calls Example.after_forecast
                ++ [Fetch (GridPoint.forecastHourlyUrl Example.gridPoint)] |}.
Proof.
  refine (cached_city_costs_one_request (Node.host 0) Example.not_found "NYC"
            {| name := "New York City"; lat := "40.7128"; lon := "-74.006";
               station := "KNYC" |}
            Example.gridPoint (JsDate.Time Example.dec25) Example.after_forecast _ _).
  - reflexivity.
  - vm_compute. reflexivity.
Defined.

Lemma unreadable_start_time_throws_witness :
  getDailyHigh (Node.host 0) Example.garbled "NYC" (JsDate.Time Example.dec25) fresh
  = (Throw (RangeError "Invalid time value"), Example.after_forecast).
Proof.
  refine (unreadable_start_time_throws (Node.host 0) Example.garbled "NYC"
            {| name := "New York City"; lat := "40.7128"; lon := "-74.006";
               station := "KNYC" |}
            Example.dec25 fresh Example.garbled_periods Example.after_forecast
            Example.garbled_period _ _ _ _).
  - reflexivity.
  - vm_compute. reflexivity.
  - unfold Example.garbled_periods. apply in_or_app. right. left. reflexivity.
  - vm_compute. reflexivity.
Defined.


End ForecastFacts.

(** ** The weather scanner: parsing, discovery, refresh and ranking *)

Module MarketFacts.
Import Scanner Spec.

Lemma find_city_key q l code :
  find_city q l = Some code -> In code (map fst l).
Proof.
  induction l as [| [k vs] l IH]; [discriminate |].
  cbn [find_city]. destruct (Js.some _ vs).
  - intros [= <-]. left. reflexivity.
  - intros H. right. apply IH, H.
Qed.

Lemma city_key_own code :
  In code (map fst CITY_VARIATIONS) -> exists c, NWS.CITIES code = NWS.Own c.
Proof.
  intros [<- | [<- | [<- | [<- | [<- | [<- | []]]]]]]; eexists; reflexivity.
Qed.

(** The shape of a successful parse. *)
Lemma parseWeatherMarket_some host B (parse : string -> option B) t_now m wm :
  parseWeatherMarket host B parse t_now m = Ok (Some wm) ->
  isTemp m = true
  /\ find_city (question_text m) CITY_VARIATIONS = Some (WeatherMarket.cityCode wm)
  /\ extractTargetDate host t_now (question_text m) m = Ok (WeatherMarket.targetDate wm)
  /\ WeatherMarket.outcomes wm = parseOutcomes B parse m
  /\ WeatherMarket.outcomes wm <> []
  /\ WeatherMarket.marketId wm = Js.sor (RawMarket.id m) (RawMarket.conditionId m)
  /\ exists c, NWS.CITIES (WeatherMarket.cityCode wm) = NWS.Own c
               /\ WeatherMarket.city wm = NWS.name c.
Proof.
  unfold parseWeatherMarket.
  destruct (isTemp m); [| discriminate]. cbn [negb].
  destruct (find_city (question_text m) CITY_VARIATIONS) as [code |]; [| discriminate].
  destruct (NWS.CITIES code) as [| c |] eqn:Ec; try discriminate.
  destruct (extractTargetDate host t_now (question_text m) m) as [d | e]; [| discriminate].
  destruct (parseOutcomes B parse m) as [| o os] eqn:Eo; [discriminate |].
  intros [= <-]. cbn. rewrite Ec. repeat split; try reflexivity; try discriminate.
  exists c. split; reflexivity.
Qed.

(** X9: every market that [parseWeatherMarket] returns has one of the six
    tracked city codes, which [CITIES] resolves to the city whose name it
    carries (so the unknown-city guard of [getDailyHigh] cannot fire for
    it); it has at least one outcome; each of its outcomes comes from a raw
    outcome of the record, one of the list that [parseOutcomes] goes
    through, whose label parsed to its bucket, whose token identifier it
    keeps and whose listed price it carries; and its [marketId] is the [id]
    of the record or else its [conditionId]. *)
Theorem parsed_market_is_tracked host B (parse : string -> option B) t_now m wm :
  parseWeatherMarket host B parse t_now m = Ok (Some wm) ->
  In (WeatherMarket.cityCode wm) ["NYC"; "LA"; "Chicago"; "Miami"; "Dallas"; "Seattle"]
  /\ (exists c, NWS.CITIES (WeatherMarket.cityCode wm) = NWS.Own c
                /\ WeatherMarket.city wm = NWS.name c)
  /\ WeatherMarket.outcomes wm <> []
  /\ (forall o, In o (WeatherMarket.outcomes wm) ->
        exists raw, In raw (raw_outcomes m)
                    /\ parse (label raw) = Some (MarketOutcome.bucket o)
                    /\ MarketOutcome.tokenId o = token raw
                    /\ MarketOutcome.price o = listed_price raw)
  /\ WeatherMarket.marketId wm = Js.sor (RawMarket.id m) (RawMarket.conditionId m).
Proof.
  intros H.
  apply parseWeatherMarket_some in H.
  destruct H as (_ & Hcity & _ & Hout & Hne & Hid & Hown).
  split; [exact (find_city_key _ _ _ Hcity) |].
  split; [exact Hown |]. split; [exact Hne |]. split; [| exact Hid].
  intros o Ho. rewrite Hout in Ho. unfold parseOutcomes in Ho.
  fold (raw_outcomes m) in Ho.
  apply in_flat_map in Ho. destruct Ho as (raw & Hraw & Ho).
  exists raw. fold (label raw) in Ho.
  destruct (parse (label raw)) as [b |]; [| destruct Ho].
  destruct Ho as [<- | []]. split; [exact Hraw |]. repeat split.
Qed.

Lemma find_city_dallas q :
  Js.includes q "dallas" = true ->
  find_city q CITY_VARIATIONS = Some "NYC" \/ find_city q CITY_VARIATIONS = Some "LA".
Proof.
  intros H.
  assert (Hla : Js.includes q "la" = true).
  { apply (StringFacts.includes_trans q "dallas" "la" H). reflexivity. }
  unfold CITY_VARIATIONS. cbn [find_city].
  destruct (Js.some (fun v => Js.includes q v) ["new york"; "nyc"; "manhattan"; "central park"]);
    [left; reflexivity |].
  right. cbn [Js.some existsb]. rewrite Hla. rewrite orb_true_r. reflexivity.
Qed.

(** X10: the variation "la" of Los Angeles occurs inside "dallas", and Los
    Angeles comes before Dallas in [CITY_VARIATIONS]: a market whose
    question names Dallas is never given the city code Dallas, it is read as
    New York or Los Angeles. *)
Theorem dallas_is_read_as_another_city host B (parse : string -> option B) t_now m wm :
  parseWeatherMarket host B parse t_now m = Ok (Some wm) ->
  Js.includes (question_text m) "dallas" = true ->
  WeatherMarket.cityCode wm = "NYC" \/ WeatherMarket.cityCode wm = "LA".
Proof.
  intros H Hd. apply parseWeatherMarket_some in H.
  destruct H as (_ & Hcity & _).
  destruct (find_city_dallas _ Hd) as [E | E]; rewrite E in Hcity;
    injection Hcity as <-; auto.
Qed.

Section Discovery.
Variable host : Host.
Variable w : World.
Variable B : Type.
Variable parse : string -> option B.

(** A temperature market of a tracked city whose [endDate] is no date
    makes [parseWeatherMarket] throw. *)
Lemma parseWeatherMarket_bad_endDate t_now m text :
  isTemp m = true ->
  find_city (question_text m) CITY_VARIATIONS <> None ->
  Js.sor (RawMarket.endDate m) None = Some text ->
  Date_parse host text = JsDate.Invalid ->
  parseWeatherMarket host B parse t_now m = Throw (RangeError "Invalid time value").
Proof.
  intros Ht Hc He Hd. unfold parseWeatherMarket. rewrite Ht. cbn [negb].
  destruct (find_city (question_text m) CITY_VARIATIONS) as [code |] eqn:E; [| congruence].
  destruct (city_key_own code (find_city_key _ _ _ E)) as [c ->].
  unfold extractTargetDate. rewrite He, Hd. reflexivity.
Qed.

(** The loop over a listing stops at the first record that throws, and logs
    nothing. *)
Lemma collect_throws data :
  forall acc s m,
    In m data ->
    (forall t, exists e, parseWeatherMarket host B parse t m = Throw e) ->
    exists e, collect host w B parse data acc s = (Throw e, s).
Proof.
  induction data as [| a data IH]; intros acc s m Hin Hbad; [destruct Hin |].
  cbn [collect]. unfold bind at 1, now. unfold bind at 1, lift.
  destruct (parseWeatherMarket host B parse (clock w (calls s)) a) as [r | e] eqn:E.
  - destruct Hin as [-> | Hin].
    + destruct (Hbad (clock w (calls s))) as [e He]. congruence.
    + apply (IH _ s m Hin Hbad).
  - exists e. reflexivity.
Qed.

(** X11: when the primary listing holds a temperature market of a tracked
    city whose [endDate] is a non-empty text that is no date,
    [parseWeatherMarket] throws on it and [findTemperatureMarkets] drops
    every market of the primary listing: its result is that of
    [searchBroadly], run after the primary request. *)
Theorem bad_endDate_discards_primary_listing s data m text :
  listMarkets w (calls s) primary_url = Body (Ok data) ->
  In m data ->
  isTemp m = true ->
  find_city (question_text m) CITY_VARIATIONS <> None ->
  Js.sor (RawMarket.endDate m) None = Some text ->
  Date_parse host text = JsDate.Invalid ->
  findTemperatureMarkets host w B parse s
  = searchBroadly host w B parse
      {| gridPointCache := gridPointCache s; calls := calls s ++ [Fetch primary_url] |}.
Proof.
  intros Hl Hin Ht Hc He Hd.
  unfold findTemperatureMarkets, try_catch, bind at 1, fetch at 1.
  fold primary_url. rewrite Hl. unfold bind at 1, lift.
  destruct (collect_throws data [] {| gridPointCache := gridPointCache s;
                                      calls := calls s ++ [Fetch primary_url] |} m Hin)
    as [e Hcol].
  { intros t. eexists. apply (parseWeatherMarket_bad_endDate t m text Ht Hc He Hd). }
  rewrite Hcol. reflexivity.
Qed.

Lemma same_id_eq a b : same_id a b = true <-> a = b.
Proof.
  destruct a as [x |], b as [y |]; cbn; try (split; [discriminate | congruence]).
  - split; [intros H; apply String.eqb_eq in H; congruence |].
    intros [= ->]. apply String.eqb_refl.
  - split; reflexivity.
Qed.

Lemma collect_new_nodup data :
  forall acc s r s',
    List.NoDup (map WeatherMarket.marketId acc) ->
    collect_new host w B parse data acc s = (Ok r, s') ->
    List.NoDup (map WeatherMarket.marketId r).
Proof.
  induction data as [| a data IH]; intros acc s r s' Hnd H.
  - injection H as <- _. exact Hnd.
  - cbn [collect_new] in H. unfold bind at 1, now in H. unfold bind at 1, lift in H.
    destruct (parseWeatherMarket host B parse (clock w (calls s)) a) as [[wm |] | e];
      [| apply (IH _ _ _ _ Hnd H) | discriminate].
    destruct (existsb _ acc) eqn:Ex; [apply (IH _ _ _ _ Hnd H) |].
    refine (IH _ _ _ _ _ H). rewrite map_app. cbn [map].
    apply List.NoDup_app;
      [exact Hnd | apply List.NoDup_cons; [intros [] | apply List.NoDup_nil] |].
    intros i Hi Hi2. destruct Hi2 as [<- | []].
    apply in_map_iff in Hi. destruct Hi as (m' & Hm' & Hin).
    assert (existsb (fun m'0 => same_id (WeatherMarket.marketId m'0)
                                        (WeatherMarket.marketId wm)) acc = true).
    { apply existsb_exists. exists m'. split; [exact Hin | apply same_id_eq, Hm']. }
    congruence.
Qed.

Lemma search_keywords_nodup kws :
  forall acc s r s',
    List.NoDup (map WeatherMarket.marketId acc) ->
    search_keywords host w B parse kws acc s = (Ok r, s') ->
    List.NoDup (map WeatherMarket.marketId r).
Proof.
  induction kws as [| kw kws IH]; intros acc s r s' Hnd H.
  - injection H as <- _. exact Hnd.
  - cbn [search_keywords] in H. unfold bind at 1, fetch at 1 in H.
    destruct (listMarkets w (calls s) _) as [e | st tx | [data | e]]; try discriminate.
    + unfold bind at 1, ret at 1 in H. apply (IH _ _ _ _ Hnd H).
    + unfold bind at 1 in H. unfold bind at 1, lift at 1 in H.
      destruct (collect_new host w B parse data acc _) as [[acc' | e] s1] eqn:Ec;
        [| discriminate].
      apply (IH _ _ _ _ (collect_new_nodup _ _ _ _ _ Hnd Ec) H).
Qed.

(** X12: the markets that [searchBroadly] returns have pairwise different
    [marketId]s, although the three keyword queries may list the same market
    several times. *)
Theorem searchBroadly_no_duplicate_ids s r s' :
  searchBroadly host w B parse s = (Ok r, s') ->
  List.NoDup (map WeatherMarket.marketId r).
Proof.
  unfold searchBroadly, try_catch.
  destruct (search_keywords host w B parse _ [] s) as [[ms | e] s1] eqn:E.
  - intros [= <- _]. apply (search_keywords_nodup _ [] _ _ _ (List.NoDup_nil _) E).
  - unfold ret. intros [= <- _]. apply List.NoDup_nil.
Qed.

End Discovery.

Section Analysis.
Variable host : Host.
Variable w : World.
Variable B : Type.
Variable parse : string -> option B.
Variable WO : Type.
Variable edge : WO -> Q.
Variable detect : WeatherMarket.t B -> DailyForecast.t -> list WO.

Lemma refreshed_price_positive answer old :
  refreshed_price answer old = old \/ Js.gt0 (refreshed_price answer old) = true.
Proof.
  unfold refreshed_price. destruct answer as [p | e]; [| auto].
  destruct (Js.gt0 p) eqn:E; auto.
Qed.

(** X13: after [updateMarketPrices] the price of an outcome is either its
    previous price or a fetched price greater than zero; a price that was
    greater than zero stays so. *)
Theorem refresh_installs_positive_prices_only (market : WeatherMarket.t B) s market' s' i o o' :
  updateMarketPrices w B market s = (Ok market', s') ->
  WeatherMarket.outcomes market !! i = Some o ->
  WeatherMarket.outcomes market' !! i = Some o' ->
  (MarketOutcome.price o' = MarketOutcome.price o \/ Js.gt0 (MarketOutcome.price o') = true)
  /\ (Js.gt0 (MarketOutcome.price o) = true -> Js.gt0 (MarketOutcome.price o') = true).
Proof.
  unfold updateMarketPrices, bind. rewrite RefreshFacts.update_outcomes_run. unfold ret.
  intros [= <- _] Hi Ho'. cbn [WeatherMarket.outcomes] in Ho'.
  rewrite (RefreshFacts.refreshed_lookup w B _ _ _ _ Hi) in Ho'. injection Ho' as <-.
  cbn [MarketOutcome.price].
  pose proof (refreshed_price_positive
                (getPrice w (calls s ++ map price_call (take i (WeatherMarket.outcomes market)))
                          (MarketOutcome.tokenId o))
                (MarketOutcome.price o)) as [E | E].
  - rewrite E. split; [left; reflexivity | auto].
  - split; [right; exact E | intros _; exact E].
Qed.

(** X14: the third step of [scan] returns the markets in their order, each
    with its [marketId], [cityCode] and number of outcomes; a market whose
    city has no forecast is returned unchanged; price requests are issued
    for the outcomes of the markets with a forecast only, in order; and
    when no market has a forecast there is no opportunity. *)
Theorem analyze_keeps_markets_in_place forecasts markets :
  forall s, exists ms opps,
    analyze w B WO detect markets forecasts s
    = (Ok (ms, opps),
       {| gridPointCache := gridPointCache s;
          calls := calls s ++ price_calls forecasts markets |})
    /\ Forall2 (fun m m' =>
                  WeatherMarket.marketId m' = WeatherMarket.marketId m
                  /\ WeatherMarket.cityCode m' = WeatherMarket.cityCode m
                  /\ length (WeatherMarket.outcomes m') = length (WeatherMarket.outcomes m)
                  /\ (forecasts !! WeatherMarket.cityCode m = None -> m' = m))
               markets ms
    /\ ((forall m, In m markets -> forecasts !! WeatherMarket.cityCode m = None) ->
        opps = []).
Proof.
  induction markets as [| m r IH]; intros s.
  - exists [], []. cbn. rewrite app_nil_r. destruct s.
    split; [reflexivity |]. split; [constructor | reflexivity].
  - cbn [analyze price_calls flat_map].
    destruct (forecasts !! WeatherMarket.cityCode m) as [f |] eqn:Ef.
    + unfold bind at 1. unfold updateMarketPrices at 1. unfold bind at 1.
      rewrite RefreshFacts.update_outcomes_run. unfold ret at 1.
      destruct (IH {| gridPointCache := gridPointCache s;
                      calls := calls s ++ map price_call (WeatherMarket.outcomes m) |})
        as (ms & opps & Hrun & Hall & Hnone).
      unfold bind at 1. rewrite Hrun. unfold ret. cbn [fst snd calls gridPointCache].
      eexists. eexists. split; [rewrite <- app_assoc; reflexivity |]. split.
      * constructor; [| exact Hall].
        cbn [WeatherMarket.marketId WeatherMarket.cityCode WeatherMarket.outcomes].
        repeat split; try reflexivity.
        -- apply RefreshFacts.refreshed_length.
        -- congruence.
      * intros Hn. pose proof (Hn m (or_introl eq_refl)). congruence.
    + destruct (IH s) as (ms & opps & Hrun & Hall & Hnone).
      unfold bind at 1. rewrite Hrun. unfold ret. cbn [fst snd app].
      eexists. eexists. split; [reflexivity |]. split.
      * constructor; [| exact Hall]. repeat split; reflexivity.
      * intros Hn. apply Hnone. intros m' Hm'. apply Hn. right. exact Hm'.
Qed.

(** *** The order of the opportunities *)


Lemma insert_by_edge_perm x l : Permutation (x :: l) (insert_by_edge WO edge x l).
Proof.
  induction l as [| y r IH]; [reflexivity |].
  cbn [insert_by_edge]. destruct (Qle_bool (edge y) (edge x)); [reflexivity |].
  rewrite perm_swap. apply perm_skip, IH.
Qed.

Lemma sort_by_edge_perm l : Permutation l (sort_by_edge WO edge l).
Proof.
  induction l as [| x l IH]; [reflexivity |].
  cbn [sort_by_edge fold_right]. fold (sort_by_edge WO edge l).
  rewrite <- insert_by_edge_perm. apply perm_skip, IH.
Qed.

Lemma insert_by_edge_sorted x l :
  StronglySorted (fun a b => (edge b <= edge a)%Q) l -> StronglySorted (fun a b => (edge b <= edge a)%Q) (insert_by_edge WO edge x l).
Proof.
  induction l as [| y r IH]; intros Hs.
  - repeat constructor.
  - cbn [insert_by_edge]. inversion Hs as [| ? ? Hr Hy]; subst.
    destruct (Qle_bool (edge y) (edge x)) eqn:E.
    + constructor; [exact Hs |]. apply Qle_bool_iff in E.
      constructor; [exact E |].
      eapply List.Forall_impl; [| exact Hy]. intros z Hz. cbv beta in *.
      eapply Qle_trans; [exact Hz | exact E].
    + constructor; [apply IH, Hr |].
      eapply Permutation_Forall; [apply insert_by_edge_perm |].
      constructor; [| exact Hy]. apply NWSFacts.Qle_bool_false, E.
Qed.

Lemma sort_by_edge_sorted l : StronglySorted (fun a b => (edge b <= edge a)%Q) (sort_by_edge WO edge l).
Proof.
  induction l as [| x l IH]; [constructor |].
  cbn [sort_by_edge fold_right]. fold (sort_by_edge WO edge l).
  apply insert_by_edge_sorted, IH.
Qed.

Lemma strongly_sorted_nth l :
  StronglySorted (fun a b => (edge b <= edge a)%Q) l ->
  forall i j x y, (i <= j)%nat -> nth_error l i = Some x -> nth_error l j = Some y ->
                  (edge y <= edge x)%Q.
Proof.
  induction 1 as [| a l Hs IH Ha]; intros i j x y Hij Hi Hj.
  - destruct i; discriminate.
  - destruct i as [| i], j as [| j]; cbn in Hi, Hj.
    + injection Hi as <-. injection Hj as <-. apply Qle_refl.
    + injection Hi as <-. rewrite List.Forall_forall in Ha.
      apply (Ha y). eapply nth_error_In, Hj.
    + lia.
    + apply (IH i j); [lia | exact Hi | exact Hj].
Qed.

(** X15: the sort of [scan] permutes the opportunities and leaves them in
    descending order of [edge]. *)
Theorem sort_by_edge_descending l :
  Permutation l (sort_by_edge WO edge l)
  /\ forall i j x y,
       (i <= j)%nat ->
       nth_error (sort_by_edge WO edge l) i = Some x ->
       nth_error (sort_by_edge WO edge l) j = Some y ->
       (edge y <= edge x)%Q.
Proof.
  split; [apply sort_by_edge_perm | apply strongly_sorted_nth, sort_by_edge_sorted].
Qed.

(** The opportunities of a scan come out of the sort. *)
Lemma scan_opportunities targetDate s r s' :
  scan host w B parse WO edge detect targetDate s = (Ok r, s') ->
  exists l, WeatherScanResult.opportunities r = sort_by_edge WO edge l.
Proof.
  unfold scan. unfold bind at 1.
  destruct (match targetDate with Some d => ret d | None => getTomorrowDate host w end s)
    as [[scanDate | e] s0]; [| discriminate].
  unfold bind at 1, lift.
  destruct (toISODate scanDate) as [iso | e]; [| discriminate].
  unfold bind at 1, now. rewrite try_rethrow. unfold bind at 1.
  destruct (findTemperatureMarkets host w B parse s0) as [[[| m ms] | e] s1];
    [| | discriminate].
  - unfold ret. intros [= <- _]. exists []. reflexivity.
  - unfold bind at 1.
    destruct (fetch_forecasts host w _ scanDate ∅ s1) as [[forecasts | e] s2];
      [| discriminate].
    unfold bind at 1.
    destruct (analyze w B WO detect (m :: ms) forecasts s2) as [[a | e] s3];
      [| discriminate].
    unfold ret. intros [= <- _]. eexists. reflexivity.
Qed.

(** X16: when [quickScan] returns, the scan it ran returned; [count] is the
    number of its opportunities, [hasOpportunities] says whether there is
    one, and [topOpportunity] is the first of them, whose edge is at least
    that of every other. *)
Theorem quickScan_top_is_best s q s' :
  quickScan host w B parse WO edge detect s = (Ok q, s') ->
  exists r,
    scan host w B parse WO edge detect None s = (Ok r, s')
    /\ QuickScan.count q = length (WeatherScanResult.opportunities r)
    /\ QuickScan.topOpportunity q = hd_error (WeatherScanResult.opportunities r)
    /\ (QuickScan.hasOpportunities q = true <-> WeatherScanResult.opportunities r <> [])
    /\ (forall o, In o (WeatherScanResult.opportunities r) ->
          exists top, QuickScan.topOpportunity q = Some top /\ (edge o <= edge top)%Q).
Proof.
  unfold quickScan, bind.
  destruct (scan host w B parse WO edge detect None s) as [[r | e] s1] eqn:E;
    [| discriminate].
  unfold ret. intros [= <- <-]. exists r. split; [reflexivity |].
  cbn [QuickScan.count QuickScan.topOpportunity QuickScan.hasOpportunities].
  split; [reflexivity |]. split; [reflexivity |]. split.
  - destruct (WeatherScanResult.opportunities r); cbn; split; intros;
      try discriminate; try congruence; try reflexivity.
  - intros o Ho. destruct (scan_opportunities _ _ _ _ E) as [l Hl].
    rewrite Hl in *.
    destruct (In_nth_error _ _ Ho) as [j Hj].
    destruct (sort_by_edge WO edge l) as [| top rest] eqn:Es; [destruct Ho |].
    exists top. split; [reflexivity |].
    pose proof (sort_by_edge_sorted l) as Hs. rewrite Es in Hs.
    apply (strongly_sorted_nth _ Hs 0%nat j top o); [lia | reflexivity | exact Hj].
Qed.

End Analysis.

(** X17: a raw outcome whose [price] is the number zero is treated as having
    no price: its bucket gets the [lastTradePrice] when that is truthy, else
    0.5. *)
Theorem zero_price_falls_back B (parse : string -> option B) m l o b q :
  Js.aor (RawMarket.outcomes m) (RawMarket.tokens m) = Some l ->
  In o l ->
  parse (label o) = Some b ->
  RawOutcome.price o = Js.Num (Js.Fin q) ->
  (q == 0)%Q ->
  In {| MarketOutcome.tokenId := token o;
        MarketOutcome.bucket := b;
        MarketOutcome.price :=
          Js.parseFloat (Js.or (RawOutcome.lastTradePrice o) (Js.Str "0.5")) |}
     (parseOutcomes B parse m).
Proof.
  intros Hl Ho Hb Hp Hq.
  pose proof (ParsingFacts.parseOutcomes_member B parse m l o b Hl Ho Hb) as H.
  rewrite Hp in H.
  assert (E : Js.or (Js.Num (Js.Fin q)) (RawOutcome.lastTradePrice o)
              = RawOutcome.lastTradePrice o).
  { unfold Js.or, Js.truthy. apply Qeq_bool_iff in Hq. rewrite Hq. reflexivity. }
  rewrite E in H. exact H.
Qed.

(** *** Runs on the sample data *)

Lemma Example_asked_parsed :
  parseWeatherMarket (Node.host 0) string Example.any_bucket 0 Example.asked_market
  = Ok (Some Example.asked_parsed).
Proof. vm_compute. reflexivity. Defined.

Lemma parsed_market_is_tracked_witness :
  In (WeatherMarket.cityCode Example.asked_parsed)
     ["NYC"; "LA"; "Chicago"; "Miami"; "Dallas"; "Seattle"]
  /\ (exists c, NWS.CITIES (WeatherMarket.cityCode Example.asked_parsed) = NWS.Own c
                /\ WeatherMarket.city Example.asked_parsed = NWS.name c)
  /\ WeatherMarket.outcomes Example.asked_parsed <> []
  /\ (forall o, In o (WeatherMarket.outcomes Example.asked_parsed) ->
        exists raw, In raw (raw_outcomes Example.asked_market)
                    /\ Example.any_bucket (label raw) = Some (MarketOutcome.bucket o)
                    /\ MarketOutcome.tokenId o = token raw
                    /\ MarketOutcome.price o = listed_price raw)
  /\ WeatherMarket.marketId Example.asked_parsed
     = Js.sor (RawMarket.id Example.asked_market) (RawMarket.conditionId Example.asked_market).
Proof.
  exact (parsed_market_is_tracked _ _ _ _ _ _ Example_asked_parsed).
Defined.

Lemma dallas_is_read_as_another_city_witness :
  WeatherMarket.cityCode Example.dallas_parsed = "NYC"
  \/ WeatherMarket.cityCode Example.dallas_parsed = "LA".
Proof.
  refine (dallas_is_read_as_another_city (Node.host 0) string Example.any_bucket 0
            Example.dallas_market Example.dallas_parsed _ _);
    vm_compute; reflexivity.
Defined.

Lemma bad_endDate_discards_primary_listing_witness :
  findTemperatureMarkets (Node.host 0) Example.undated_listing string Example.any_bucket fresh
  = searchBroadly (Node.host 0) Example.undated_listing string Example.any_bucket
      {| gridPointCache := gridPointCache fresh;
         calls := calls fresh ++ [Fetch primary_url] |}.
Proof.
  refine (bad_endDate_discards_primary_listing (Node.host 0) Example.undated_listing
            string Example.any_bucket fresh
            [Example.asked_market; Example.undated_market] Example.undated_market
            "to be announced" _ _ _ _ _ _).
  - reflexivity.
  - right. left. reflexivity.
  - vm_compute. reflexivity.
  - vm_compute. discriminate.
  - reflexivity.
  - vm_compute. reflexivity.
Defined.

Lemma searchBroadly_no_duplicate_ids_witness :
  List.NoDup (map WeatherMarket.marketId [Example.asked_parsed]).
Proof.
  refine (searchBroadly_no_duplicate_ids (Node.host 0) Example.trading string
            Example.any_bucket fresh [Example.asked_parsed]
            {| gridPointCache := ∅;
               calls := [ Fetch (fallback_url "temperature"); Fetch (fallback_url "high");
                          Fetch (fallback_url "weather") ] |} _).
  vm_compute. reflexivity.
Defined.

Lemma Example_refreshed_market :
  updateMarketPrices Example.trading string Example.market fresh
  = (Ok Example.refreshed_market,
     {| gridPointCache := ∅;
        calls := [ GetPrice (Some "tok-a"); GetPrice (Some "tok-b");
                   GetPrice (Some "tok-c") ] |}).
Proof. vm_compute. reflexivity. Defined.

Lemma refresh_installs_positive_prices_only_witness :
  (Js.Fin 0.25 = Js.Fin 0.2 \/ Js.gt0 (Js.Fin 0.25) = true)
  /\ (Js.gt0 (Js.Fin 0.2) = true -> Js.gt0 (Js.Fin 0.25) = true).
Proof.
  exact (refresh_installs_positive_prices_only Example.trading string Example.market fresh
           Example.refreshed_market _ 2%nat
           {| MarketOutcome.tokenId := Some "tok-c";
              MarketOutcome.bucket := "39°F or below";
              MarketOutcome.price := Js.Fin 0.2 |}
           {| MarketOutcome.tokenId := Some "tok-c";
              MarketOutcome.bucket := "39°F or below";
              MarketOutcome.price := Js.Fin 0.25 |}
           Example_refreshed_market eq_refl eq_refl).
Defined.

Lemma analyze_keeps_markets_in_place_witness :
  exists ms,
    analyze Example.trading string Q Example.detect [Example.market] ∅ fresh
    = (Ok (ms, []), {| gridPointCache := gridPointCache fresh;
                       calls := calls fresh ++ price_calls ∅ [Example.market] |}).
Proof.
  destruct (analyze_keeps_markets_in_place Example.trading string Q Example.detect
              ∅ [Example.market] fresh) as (ms & opps & Hrun & _ & Hnone).
  exists ms. rewrite <- (Hnone (fun m _ => lookup_empty _)). exact Hrun.
Defined.

Lemma sort_by_edge_descending_witness :
  (0.1 <= 0.7)%Q.
Proof.
  exact (proj2 (sort_by_edge_descending Q (fun e => e) [0.1; 0.7; 0.3]%Q)
               0%nat 2%nat 0.7%Q 0.1%Q (le_S _ _ (le_S _ _ (le_n _))) eq_refl eq_refl).
Defined.

Lemma quickScan_top_is_best_witness :
  exists r,
    scan (Node.host 0) Example.trading string Example.any_bucket Q (fun e => e)
         Example.detect None fresh
    = (Ok r, snd (quickScan (Node.host 0) Example.trading string Example.any_bucket Q
                            (fun e => e) Example.detect fresh))
    /\ 2%nat = length (WeatherScanResult.opportunities r)
    /\ Some 0.7%Q = hd_error (WeatherScanResult.opportunities r)
    /\ (true = true <-> WeatherScanResult.opportunities r <> [])
    /\ (forall o, In o (WeatherScanResult.opportunities r) ->
          exists top, Some 0.7%Q = Some top /\ (o <= top)%Q).
Proof.
  refine (quickScan_top_is_best (Node.host 0) Example.trading string Example.any_bucket Q
            (fun e => e) Example.detect fresh
            {| QuickScan.hasOpportunities := true;
               QuickScan.count := 2;
               QuickScan.topOpportunity := Some 0.7%Q |} _ _).
  vm_compute. reflexivity.
Defined.

Lemma zero_price_falls_back_witness :
  In {| MarketOutcome.tokenId := Some "tok-z";
        MarketOutcome.bucket := "50-54°F";
        MarketOutcome.price := Js.Fin (21 # 50) |}
     (parseOutcomes string Example.any_bucket Example.zero_priced_market).
Proof.
  refine (zero_price_falls_back string Example.any_bucket Example.zero_priced_market
            [Example.zero_priced] Example.zero_priced "50-54°F" 0 _ _ _ _ _).
  - reflexivity.
  - left. reflexivity.
  - reflexivity.
  - reflexivity.
  - reflexivity.
Defined.

End MarketFacts.

(** ** The Bitcoin market scanner *)

Module BitcoinFacts.
Import MarketScanner BitcoinSpec.

(** A blank at the start of a text does not count. *)
Lemma trim_start_blank b s : In b white_space -> trim_start (b ++ s) = trim_start s.
Proof.
  intros H. repeat (destruct H as [<- | H]; [destruct s; reflexivity |]). destruct H.
Qed.

(** Each of the twenty-five blanks, the no-break space and the byte order
    mark among them, is stripped on either side; blanks inside the text
    stay. *)
Lemma blanks_are_trimmed :
  length white_space = 25%nat
  /\ List.Forall (fun b => trim b = ""
                           /\ trim (b ++ "up" ++ b) = "up"
                           /\ isUpOutcome (b ++ "UP" ++ b ++ b) = true
                           /\ isDownOutcome (b ++ b ++ "Down" ++ b) = true
                           /\ trim ("u" ++ b ++ "p") = "u" ++ b ++ "p")
                 white_space
  /\ isUpOutcome "u p" = false
  /\ isUpOutcome (bytes [160]%nat ++ "up") = false.
Proof.
  split; [reflexivity |]. split; [| split; reflexivity].
  repeat (apply List.Forall_cons; [repeat split; vm_compute; reflexivity |]).
  apply List.Forall_nil.
Qed.

Lemma up_is_not_down text : isUpOutcome text = true -> isDownOutcome text = false.
Proof.
  unfold isUpOutcome, isDownOutcome. intros H. apply String.eqb_eq in H. rewrite H.
  reflexivity.
Qed.

Section Scanner.
Variable host : Host.
Variable client : Client.
Variable keywords : list string.
Variable excludeKeywords : list string.

Lemma read_tokens_up tokens :
  forall seen,
    is_Some (fst (fold_left read_token tokens seen))
    <-> is_Some (fst seen) \/ exists t, In t tokens /\ reads_up t.
Proof.
  induction tokens as [| a tokens IH]; intros seen; cbn [fold_left].
  - split; [auto | intros [H | (t & [] & _)]; exact H].
  - rewrite IH. unfold read_token. fold (outcome_text a).
    destruct (isUpOutcome (outcome_text a)) eqn:Eu.
    + cbn [fst]. split; [intros _ | intros _; left; eauto].
      right. exists a. split; [left; reflexivity | exact Eu].
    + assert (Hfst : fst (if isDownOutcome (outcome_text a)
                          then (fst seen, Some {| TokenInfo.tokenId :=
                                  Js.sor (Js.sor (RawToken.token_id a) (RawToken.tokenId a))
                                         (RawToken.id a);
                                TokenInfo.outcome :=
                                  Js.sor (RawToken.outcome a) (RawToken.name a);
                                TokenInfo.price := Js.Fin 0 |})
                          else seen) = fst seen)
        by (destruct (isDownOutcome (outcome_text a)); reflexivity).
      rewrite Hfst. split.
      * intros [H | (t & Ht & Hu)]; [left; exact H | right; exists t; split; [right |]; auto].
      * intros [H | (t & [<- | Ht] & Hu)]; [left; exact H | | right; eauto].
        unfold reads_up in Hu. congruence.
Qed.

Lemma read_tokens_down tokens :
  forall seen,
    is_Some (snd (fold_left read_token tokens seen))
    <-> is_Some (snd seen) \/ exists t, In t tokens /\ reads_down t.
Proof.
  induction tokens as [| a tokens IH]; intros seen; cbn [fold_left].
  - split; [auto | intros [H | (t & [] & _)]; exact H].
  - rewrite IH. unfold read_token. fold (outcome_text a).
    destruct (isUpOutcome (outcome_text a)) eqn:Eu.
    + cbn [snd]. pose proof (up_is_not_down _ Eu) as Ed. split.
      * intros [H | (t & Ht & Hd)]; [left; exact H | right; exists t; split; [right |]; auto].
      * intros [H | (t & [<- | Ht] & Hd)]; [left; exact H | | right; eauto].
        unfold reads_down in Hd. congruence.
    + destruct (isDownOutcome (outcome_text a)) eqn:Ed.
      * cbn [snd]. split; [intros _ | intros _; left; eauto].
        right. exists a. split; [left; reflexivity | exact Ed].
      * split.
        -- intros [H | (t & Ht & Hd)]; [left; exact H | right; exists t; split; [right |]; auto].
        -- intros [H | (t & [<- | Ht] & Hd)]; [left; exact H | | right; eauto].
           unfold reads_down in Hd. congruence.
Qed.

(** Every token that the loop keeps has the price zero. *)
Lemma read_tokens_price tokens :
  forall seen,
    (forall u, fst seen = Some u -> TokenInfo.price u = Js.Fin 0) ->
    (forall d, snd seen = Some d -> TokenInfo.price d = Js.Fin 0) ->
    (forall u, fst (fold_left read_token tokens seen) = Some u ->
               TokenInfo.price u = Js.Fin 0)
    /\ (forall d, snd (fold_left read_token tokens seen) = Some d ->
                  TokenInfo.price d = Js.Fin 0).
Proof.
  induction tokens as [| a tokens IH]; intros seen Hu Hd; cbn [fold_left]; [auto |].
  apply IH; unfold read_token;
    destruct (isUpOutcome _); [| destruct (isDownOutcome _) | | destruct (isDownOutcome _)];
    cbn [fst snd]; auto; intros x [= <-]; reflexivity.
Qed.

(** X18: [parseMarket] returns a market exactly when one of the tokens of the
    record reads "up" and one reads "down" once lowercased and trimmed of
    the white space and line terminators at either end, those outside
    ASCII included; the market then has both tokens, each with the price
    zero. *)
Theorem parseMarket_needs_up_and_down t_now raw :
  (is_Some (parseMarket host keywords excludeKeywords t_now raw)
   <-> (exists t, In t (raw_tokens raw) /\ reads_up t)
       /\ (exists t, In t (raw_tokens raw) /\ reads_down t))
  /\ (forall p,
        parseMarket host keywords excludeKeywords t_now raw = Some p ->
        exists u d,
          ParsedMarket.upToken p = Some u /\ ParsedMarket.downToken p = Some d
          /\ TokenInfo.price u = Js.Fin 0 /\ TokenInfo.price d = Js.Fin 0).
Proof.
  unfold parseMarket. fold (raw_tokens raw).
  pose proof (read_tokens_up (raw_tokens raw) (None, None)) as Hu.
  pose proof (read_tokens_down (raw_tokens raw) (None, None)) as Hd.
  destruct (read_tokens_price (raw_tokens raw) (None, None)) as [Pu Pd];
    [discriminate | discriminate |].
  destruct (fold_left read_token (raw_tokens raw) (None, None)) as [[u |] [d |]];
    cbn [fst snd] in *.
  - split.
    + split; [intros _ | intros _; eexists; reflexivity]. split.
      * destruct (proj1 Hu (ex_intro _ u eq_refl)) as [[x Hx] | H]; [discriminate | exact H].
      * destruct (proj1 Hd (ex_intro _ d eq_refl)) as [[x Hx] | H]; [discriminate | exact H].
    + intros p [= <-]. exists u, d. cbn. auto.
  - split; [| discriminate]. split; [intros [x Hx]; discriminate |].
    intros [_ H]. destruct (proj2 Hd (or_intror H)) as [x Hx]. discriminate.
  - split; [| discriminate]. split; [intros [x Hx]; discriminate |].
    intros [H _]. destruct (proj2 Hu (or_intror H)) as [x Hx]. discriminate.
  - split; [| discriminate]. split; [intros [x Hx]; discriminate |].
    intros [H _]. destruct (proj2 Hu (or_intror H)) as [x Hx]. discriminate.
Qed.

(** X19: an excluded keyword that occurs, in any case, in the question, the
    description or the slug makes [isBitcoinMarket] false, whatever the
    keywords and the slug say. *)
Theorem excluded_keyword_vetoes question description slug exclude :
  In exclude excludeKeywords ->
  Js.includes (Js.toLowerCase question) (Js.toLowerCase exclude) = true
  \/ Js.includes (Js.toLowerCase description) (Js.toLowerCase exclude) = true
  \/ Js.includes (Js.toLowerCase slug) (Js.toLowerCase exclude) = true ->
  isBitcoinMarket keywords excludeKeywords question description slug = false.
Proof.
  intros Hin H. unfold isBitcoinMarket.
  assert (E : Js.some (fun exclude0 =>
                         Js.includes
                           (Js.toLowerCase (question ++ " " ++ description ++ " " ++ slug))
                           (Js.toLowerCase exclude0)) excludeKeywords = true).
  { apply existsb_exists. exists exclude. split; [exact Hin |].
    rewrite !StringFacts.toLowerCase_app.
    destruct H as [H | [H | H]].
    - apply StringFacts.includes_app_l, H.
    - apply StringFacts.includes_app_r, StringFacts.includes_app_r,
        StringFacts.includes_app_l, H.
    - apply StringFacts.includes_app_r, StringFacts.includes_app_r,
        StringFacts.includes_app_r, StringFacts.includes_app_r, H. }
  rewrite E. reflexivity.
Qed.

(** A parsed market has both tokens. *)
Lemma parseMarket_tokens t_now raw p :
  parseMarket host keywords excludeKeywords t_now raw = Some p ->
  exists u d, ParsedMarket.upToken p = Some u /\ ParsedMarket.downToken p = Some d.
Proof.
  unfold parseMarket.
  destruct (fold_left read_token _ (None, None)) as [[u |] [d |]]; try discriminate.
  intros [= <-]. exists u, d. split; reflexivity.
Qed.

Lemma kept_tokens t raw p :
  kept host keywords excludeKeywords t raw = Some p ->
  parseMarket host keywords excludeKeywords t raw = Some p
  /\ ParsedMarket.isBitcoinMarket p = true
  /\ ParsedMarket.isActive p = true
  /\ exists u d, ParsedMarket.upToken p = Some u /\ ParsedMarket.downToken p = Some d.
Proof.
  unfold kept.
  destruct (parseMarket host keywords excludeKeywords t raw) as [p0 |] eqn:E; [| discriminate].
  destruct (ParsedMarket.isBitcoinMarket p0 && ParsedMarket.isActive p0)%bool eqn:G;
    [| discriminate].
  intros [= <-]. apply andb_true_iff in G. destruct G as [G1 G2].
  split; [reflexivity |]. split; [exact G1 |]. split; [exact G2 |].
  exact (parseMarket_tokens t raw p0 E).
Qed.

(** One step of the loop, on a record that the scan keeps. *)
Lemma scan_markets_kept raw rest acc log p u d :
  kept host keywords excludeKeywords (time client log) raw = Some p ->
  ParsedMarket.upToken p = Some u ->
  ParsedMarket.downToken p = Some d ->
  scan_markets host client keywords excludeKeywords (raw :: rest) acc log
  = match getPrice client log (TokenInfo.tokenId u) with
    | Throw e => (Throw e, log ++ [CallGetPrice (TokenInfo.tokenId u)])
    | Ok pu =>
        match getPrice client (log ++ [CallGetPrice (TokenInfo.tokenId u)])
                       (TokenInfo.tokenId d) with
        | Throw e => (Throw e, (log ++ [CallGetPrice (TokenInfo.tokenId u)])
                                 ++ [CallGetPrice (TokenInfo.tokenId d)])
        | Ok pd =>
            scan_markets host client keywords excludeKeywords rest
              (acc ++ [ {| ParsedMarket.id := ParsedMarket.id p;
                           ParsedMarket.conditionId := ParsedMarket.conditionId p;
                           ParsedMarket.question := ParsedMarket.question p;
                           ParsedMarket.slug := ParsedMarket.slug p;
                           ParsedMarket.endDate := ParsedMarket.endDate p;
                           ParsedMarket.upToken :=
                             Some {| TokenInfo.tokenId := TokenInfo.tokenId u;
                                     TokenInfo.outcome := TokenInfo.outcome u;
                                     TokenInfo.price := pu |};
                           ParsedMarket.downToken :=
                             Some {| TokenInfo.tokenId := TokenInfo.tokenId d;
                                     TokenInfo.outcome := TokenInfo.outcome d;
                                     TokenInfo.price := pd |};
                           ParsedMarket.isActive := ParsedMarket.isActive p;
                           ParsedMarket.isBitcoinMarket :=
                             ParsedMarket.isBitcoinMarket p |} ])
              ((log ++ [CallGetPrice (TokenInfo.tokenId u)])
                 ++ [CallGetPrice (TokenInfo.tokenId d)])
        end
    end%list.
Proof.
  intros Hk Hu Hd. destruct (kept_tokens _ _ _ Hk) as (Hp & Hb & Ha & _).
  cbn [scan_markets]. unfold bind at 1, now. rewrite Hp, Hb, Ha. cbn [andb].
  rewrite Hu, Hd. unfold price_token, bind, call, ret.
  destruct (getPrice client log (TokenInfo.tokenId u)) as [pu | e]; [| reflexivity].
  destruct (getPrice client _ (TokenInfo.tokenId d)) as [pd | e]; reflexivity.
Qed.

(** One step of the loop, on a record that the scan skips. *)
Lemma scan_markets_skipped raw rest acc log :
  kept host keywords excludeKeywords (time client log) raw = None ->
  scan_markets host client keywords excludeKeywords (raw :: rest) acc log
  = scan_markets host client keywords excludeKeywords rest acc log.
Proof.
  unfold kept. intros Hk. cbn [scan_markets]. unfold bind at 1, now.
  destruct (parseMarket host keywords excludeKeywords (time client log) raw) as [p |];
    [| reflexivity].
  destruct (ParsedMarket.isBitcoinMarket p && ParsedMarket.isActive p)%bool;
    [discriminate | reflexivity].
Qed.

Lemma scan_markets_ok raws :
  forall acc log ms log',
    scan_markets host client keywords excludeKeywords raws acc log = (Ok ms, log') ->
    exists new,
      ms = (acc ++ new)%list
      /\ log' = (log ++ flat_map market_calls new)%list
      /\ priced client log new.
Proof.
  induction raws as [| raw rest IH]; intros acc log ms log' H.
  - injection H as <- <-. exists []. rewrite !app_nil_r. cbn. auto.
  - destruct (kept host keywords excludeKeywords (time client log) raw) as [p |] eqn:Hk.
    + destruct (kept_tokens _ _ _ Hk) as (_ & Hb & Ha & u & d & Hu & Hd).
      rewrite (scan_markets_kept _ _ _ _ _ _ _ Hk Hu Hd) in H.
      destruct (getPrice client log (TokenInfo.tokenId u)) as [pu | e] eqn:Eu;
        [| discriminate].
      destruct (getPrice client _ (TokenInfo.tokenId d)) as [pd | e] eqn:Ed;
        [| discriminate].
      destruct (IH _ _ _ _ H) as (new & -> & -> & Hp).
      eexists (_ :: new). split; [rewrite <- app_assoc; reflexivity |].
      split; [cbn [flat_map market_calls ParsedMarket.upToken ParsedMarket.downToken
                   token_call]; rewrite <- !app_assoc; reflexivity |].
      cbn [priced ParsedMarket.isBitcoinMarket ParsedMarket.isActive
           ParsedMarket.upToken ParsedMarket.downToken market_calls token_call].
      split; [exact Hb |]. split; [exact Ha |]. split.
      * eexists. eexists. split; [reflexivity |]. split; [reflexivity |].
        cbn [TokenInfo.tokenId TokenInfo.price]. auto.
      * cbn [TokenInfo.tokenId]. rewrite <- app_assoc in Hp. exact Hp.
    + rewrite (scan_markets_skipped _ _ _ _ Hk) in H. apply (IH _ _ _ _ H).
Qed.

(** X20: when [scanBitcoinMarkets] returns, every market it returns is a
    Bitcoin market, active, with an up and a down token that carry the
    prices the client answered; the client was asked for the listing once
    and then for exactly these two prices per returned market, in order. *)
Theorem scanBitcoinMarkets_result log ms log' :
  scanBitcoinMarkets host client keywords excludeKeywords log = (Ok ms, log') ->
  log' = (log ++ CallGetMarkets :: flat_map market_calls ms)%list
  /\ priced client (log ++ [CallGetMarkets]) ms.
Proof.
  unfold scanBitcoinMarkets. rewrite try_rethrow. unfold bind, call.
  destruct (getMarkets client log) as [raws | e]; [| discriminate].
  intros H. destruct (scan_markets_ok _ _ _ _ _ H) as (new & -> & -> & Hp).
  cbn [app]. split; [rewrite <- app_assoc; reflexivity | exact Hp].
Qed.

Lemma scan_markets_skip_all skipped :
  forall rest acc log,
    (forall m, In m skipped -> kept host keywords excludeKeywords (time client log) m = None) ->
    scan_markets host client keywords excludeKeywords (skipped ++ rest) acc log
    = scan_markets host client keywords excludeKeywords rest acc log.
Proof.
  induction skipped as [| m skipped IH]; intros rest acc log Hs; [reflexivity |].
  rewrite <- app_comm_cons, scan_markets_skipped by (apply Hs; left; reflexivity).
  apply IH. intros m' Hm'. apply Hs. right. exact Hm'.
Qed.

(** X21: unlike the weather scanner, [scanBitcoinMarkets] does not tolerate a
    price failure: when the price request for the up token of the first
    market it keeps throws, the scan throws that error and returns no
    market. *)
Theorem price_failure_fails_the_scan log skipped raw rest p u e :
  getMarkets client log = Ok (skipped ++ raw :: rest)%list ->
  let log1 := (log ++ [CallGetMarkets])%list in
  (forall m, In m skipped -> kept host keywords excludeKeywords (time client log1) m = None) ->
  kept host keywords excludeKeywords (time client log1) raw = Some p ->
  ParsedMarket.upToken p = Some u ->
  getPrice client log1 (TokenInfo.tokenId u) = Throw e ->
  scanBitcoinMarkets host client keywords excludeKeywords log
  = (Throw e, (log1 ++ [CallGetPrice (TokenInfo.tokenId u)])%list).
Proof.
  intros Hm log1 Hs Hk Hu He.
  unfold scanBitcoinMarkets. rewrite try_rethrow. unfold bind, call. rewrite Hm.
  fold log1. rewrite (scan_markets_skip_all _ _ _ _ Hs).
  destruct (kept_tokens _ _ _ Hk) as (_ & _ & _ & u' & d & Hu' & Hd).
  rewrite Hu in Hu'. injection Hu' as <-.
  rewrite (scan_markets_kept _ _ _ _ _ _ _ Hk Hu Hd), He. reflexivity.
Qed.

(** [getMarketDetails] swallows the failure of its one request. *)
Lemma getMarketDetails_returns conditionId log :
  exists r, getMarketDetails host client keywords excludeKeywords conditionId log
            = (Ok r, (log ++ [CallGetMarketByConditionId conditionId])%list).
Proof.
  unfold getMarketDetails, try_catch, bind, call, now, ret.
  destruct (getMarketByConditionId client log conditionId); eexists; reflexivity.
Qed.

End Scanner.

(** *** Runs on the sample data *)

Lemma parseMarket_needs_up_and_down_witness :
  is_Some (parseMarket (Node.host 0) Example.keywords Example.excludeKeywords 0
                       Example.blanks_raw).
Proof.
  refine (proj2 (proj1 (parseMarket_needs_up_and_down (Node.host 0) Example.keywords
                          Example.excludeKeywords 0 Example.blanks_raw)) _).
  split.
  - exists (Example.btc_token Example.up_in_blanks "u-3").
    split; [left; reflexivity | reflexivity].
  - exists (Example.btc_token Example.down_in_blanks "d-3").
    split; [right; right; left; reflexivity | reflexivity].
Defined.

Lemma excluded_keyword_vetoes_witness :
  isBitcoinMarket Example.keywords Example.excludeKeywords
    "Ethereum Up or Down" "" "btc-updown-15m-1766693700" = false.
Proof.
  refine (excluded_keyword_vetoes Example.keywords Example.excludeKeywords
            "Ethereum Up or Down" "" "btc-updown-15m-1766693700" "ethereum" _ _).
  - left. reflexivity.
  - left. reflexivity.
Defined.

Lemma scanBitcoinMarkets_result_witness :
  [CallGetMarkets; CallGetPrice (Some "u-1"); CallGetPrice (Some "d-1")]
  = ([] ++ CallGetMarkets :: flat_map market_calls [Example.btc_parsed 0.52])%list
  /\ priced (Example.btc_client "none") ([] ++ [CallGetMarkets]) [Example.btc_parsed 0.52].
Proof.
  refine (scanBitcoinMarkets_result (Node.host 0) (Example.btc_client "none")
            Example.keywords Example.excludeKeywords [] [Example.btc_parsed 0.52]
            [CallGetMarkets; CallGetPrice (Some "u-1"); CallGetPrice (Some "d-1")] _).
  vm_compute. reflexivity.
Defined.

Lemma Example_eth_skipped m :
  In m [Example.eth_raw] ->
  kept (Node.host 0) Example.keywords Example.excludeKeywords
       (time (Example.btc_client "u-1") ([] ++ [CallGetMarkets])) m = None.
Proof. intros [<- | []]. vm_compute. reflexivity. Defined.

Lemma price_failure_fails_the_scan_witness :
  scanBitcoinMarkets (Node.host 0) (Example.btc_client "u-1") Example.keywords
                     Example.excludeKeywords []
  = (Throw (HostError "timeout"),
     (([] ++ [CallGetMarkets]) ++ [CallGetPrice (Some "u-1")])%list).
Proof.
  refine (price_failure_fails_the_scan (Node.host 0) (Example.btc_client "u-1")
            Example.keywords Example.excludeKeywords [] [Example.eth_raw]
            Example.btc_raw [] (Example.btc_parsed 0)
            (Example.btc_info " Up " "u-1" 0) (HostError "timeout")
            _ Example_eth_skipped _ _ _).
  - reflexivity.
  - vm_compute. reflexivity.
  - reflexivity.
  - reflexivity.
Defined.

End BitcoinFacts.
